(** * The OVH provider of external-dns (provider/ovh.go)

    A shallow embedding of the OVH DNS provider: the name helpers
    [formatOVHDNSName] and [getOVHSubDomain], the reader [Records] and the
    change applier [ApplyChanges] with its three loops, over an abstract
    remote client.  Remote calls and log lines are collected in the order
    the code issues them. *)

From Stdlib Require Import ZArith String Ascii List Bool Lia.
From stdpp Require Import base gmap strings list pretty.

Open Scope string_scope.
Open Scope Z_scope.

(** ** Go strings *)

Module GoStrings.

(** [strings.HasSuffix]:
    [len(s) >= len(suffix) && s[len(s)-len(suffix):] == suffix]. *)
Definition HasSuffix (s suffix : string) : bool :=
  (String.length suffix <=? String.length s)%nat
  && String.eqb
       (substring (String.length s - String.length suffix)
          (String.length suffix) s)
       suffix.

(** [strings.TrimSuffix]: [s[:len(s)-len(suffix)]] when [s] ends in
    [suffix], [s] itself otherwise. *)
Definition TrimSuffix (s suffix : string) : string :=
  if HasSuffix s suffix
  then substring 0 (String.length s - String.length suffix) s
  else s.

(** The verbs' operands of the [fmt.Sprintf] calls of the provider. *)
Inductive Arg :=
| AString (s : string)
| AInt (n : Z).

(** [fmt.Sprintf] for the verbs the provider uses in its paths and names:
    [%s] with a string and [%d] with an int.  Any other use of [%] is
    copied through; no format string of the provider reaches that case. *)
Fixpoint Sprintf (format : string) (args : list Arg) : string :=
  match format with
  | EmptyString => EmptyString
  | String c EmptyString => String c EmptyString
  | String c (String v rest as tl) =>
      if Ascii.eqb c "%" then
        match v, args with
        | "s"%char, AString s :: args' => s ++ Sprintf rest args'
        | "d"%char, AInt n :: args' => pretty n ++ Sprintf rest args'
        | _, _ => String c (String v (Sprintf rest args))
        end
      else String c (Sprintf tl args)
  end.

End GoStrings.
Import GoStrings.

(** ** Name helpers *)

Definition formatOVHDNSName (recordName zoneName : string) : string :=
  if String.eqb recordName "" then zoneName
  else Sprintf "%s.%s" [AString recordName; AString zoneName].

Definition getOVHSubDomain (DNSName zoneName : string) : string :=
  let subDomain := "" in
  if negb (String.eqb DNSName zoneName)
  then TrimSuffix DNSName ("." ++ zoneName)
  else subDomain.

(** A fully-qualified name consists of non-empty labels separated by
    dots; of that the helpers need only this much: the name is not empty
    and does not start with a dot. *)
Definition has_first_label (name : string) : Prop :=
  match name with
  | EmptyString => False
  | String c _ => c <> "."%char
  end.

(** ** Data model *)

(** Go's [error]; only its message matters here. *)
Definition error := string.

(** [OvhDomainZoneRecord]; a field left out of a Go literal holds its zero
    value ([0], the empty string). *)
Record OvhDomainZoneRecord := {
  ID : Z;
  Zone : string;
  Target : string;
  TTL : Z;
  FieldType : string;
  SubDomain : string
}.

(** Modelled from the spec: [endpoint.Endpoint], the normalized record of
    package [endpoint] (not part of this file's source): fully-qualified
    name, ordered targets, record type and TTL. *)
Record Endpoint := {
  DNSName : string;
  Targets : list string;
  RecordType : string;
  RecordTTL : Z
}.

(** Modelled from the spec: [endpoint.NewEndpointWithTTL], the constructor
    of package [endpoint]; it stores its arguments in the fields they
    name. *)
Definition NewEndpointWithTTL (dnsName recordType : string) (ttl : Z)
    (targets : list string) : Endpoint :=
  {| DNSName := dnsName; Targets := targets;
     RecordType := recordType; RecordTTL := ttl |}.

(** [plan.Changes]: the four lists the controller hands over. *)
Record Changes := {
  Create : list Endpoint;
  UpdateOld : list Endpoint;
  UpdateNew : list Endpoint;
  Delete : list Endpoint
}.

(** [zoneIDName] is [map[string]string]. *)
Abbreviation zoneIDName := (gmap string string).

(** Go's [int] is 64 bits wide on the platforms external-dns is built
    for; [int(x)] of an [int64] wraps around at that width.  The other
    direction, [endpoint.TTL(record.TTL)], widens and keeps the value. *)
Definition wrap (w x : Z) : Z := (x + 2 ^ (w - 1)) mod 2 ^ w - 2 ^ (w - 1).
Definition int_of_TTL (ttl : Z) : Z := wrap 64 ttl.
Definition TTL_of_int (ttl : Z) : Z := ttl.

(** ** The remote client and what a run leaves behind *)

Inductive Method := GET | POST | PUT | DELETE.

(** What a call left in the variable its response was decoded into. *)
Inductive Payload :=
| PNothing
| PStrings (l : list string)
| PInts (l : list Z)
| PRecord (r : OvhDomainZoneRecord).

(** One remote call: method, path, request body, then the decoded
    response and the error the client returned ([None] is Go's [nil]). *)
Record Call := {
  method : Method;
  path : string;
  body : option OvhDomainZoneRecord;
  response : Payload;
  failure : option error
}.

(** The operands of the [log.Printf] calls. *)
Inductive LogArg :=
| LString (s : string)
| LStrings (l : list string)
| LError (e : option error).

(** One [log.Printf] call, as the code makes it: format and operands. *)
Record LogEntry := { format : string; operands : list LogArg }.

Inductive Event :=
| Remote (c : Call)
| Logged (l : LogEntry).

(** [ovh.Client], by the type of the variable the response is decoded
    into.  A method returns what that variable holds afterwards together
    with the error; the server's state [S] is threaded through. *)
Record Client (S : Type) := {
  Get_strings : string -> S -> (list string * option error) * S;
  Get_ints : string -> S -> (list Z * option error) * S;
  Get_record : string -> S -> (OvhDomainZoneRecord * option error) * S;
  Post_record :
    string -> OvhDomainZoneRecord -> S ->
    (OvhDomainZoneRecord * option error) * S;
  Put_record : string -> OvhDomainZoneRecord -> S -> option error * S;
  Delete_path : string -> S -> option error * S
}.
Arguments Get_strings {S}.
Arguments Get_ints {S}.
Arguments Get_record {S}.
Arguments Post_record {S}.
Arguments Put_record {S}.
Arguments Delete_path {S}.

(** The outcome of a computation: its value, the server's state after it
    and the events it emitted, oldest first. *)
Record Out (S A : Type) := {
  val : A;
  remote : S;
  events : list Event
}.
Arguments val {S A}.
Arguments remote {S A}.
Arguments events {S A}.

Definition M (S A : Type) : Type := S -> Out S A.

Definition ret {S A} (a : A) : M S A :=
  fun s => {| val := a; remote := s; events := [] |}.

Definition bind {S A B} (m : M S A) (f : A -> M S B) : M S B :=
  fun s =>
    let o := m s in
    let o' := f (val o) (remote o) in
    {| val := val o'; remote := remote o';
       events := events o ++ events o' |}.

Declare Scope go_scope.
Delimit Scope go_scope with go.
Notation "'let*' x ':=' m 'in' k" := (bind m (fun x => k))
  (at level 10, x name, m at level 100, k at level 200) : go_scope.
Notation "'let*' ( x , y ) ':=' m 'in' k" :=
  (bind m (fun xy => let '(x, y) := xy in k))
  (at level 10, x name, y name, m at level 100, k at level 200) : go_scope.
Notation "m ;; k" := (bind m (fun _ => k))
  (at level 100, k at level 200, right associativity) : go_scope.
Open Scope go_scope.

Definition log_Printf {S} (fmt : string) (args : list LogArg) : M S unit :=
  fun s =>
    {| val := tt; remote := s;
       events := [Logged {| format := fmt; operands := args |}] |}.

(** Run one client method and record the call. *)
Definition remote_call {S A} (mth : Method) (url : string)
    (req : option OvhDomainZoneRecord) (inj : A -> Payload)
    (run : S -> (A * option error) * S) : M S (A * option error) :=
  fun s =>
    let '((a, err), s') := run s in
    {| val := (a, err); remote := s';
       events := [Remote {| method := mth; path := url; body := req;
                            response := inj a; failure := err |}] |}.

(** The calls among a run's events, and their method and path. *)
Definition calls_of (evs : list Event) : list Call :=
  omap (fun ev => match ev with Remote c => Some c | Logged _ => None end) evs.

Definition requests (evs : list Event) : list (Method * string) :=
  map (fun c => (method c, path c)) (calls_of evs).

(** ** The provider *)

(** [OVHProvider].  The domain filter is used through its [Match] method
    only, so the field holds that predicate. *)
Record OVHProvider (S : Type) := {
  domainFilter : string -> bool;
  dryRun : bool;
  client : Client S
}.
Arguments domainFilter {S}.
Arguments dryRun {S}.
Arguments client {S}.

(** ** Collaborators used to run the provider on concrete inputs *)

(** Modelled from the spec: the [FindZone] method of [zoneIDName] (declared
    outside this file's source): among the zones whose name is the host
    name or a dot-separated suffix of it, the one with the longest name;
    two empty strings when there is none. *)
Definition zoneIDName_FindZone (z : zoneIDName) (hostname : string)
    : string * string :=
  map_fold
    (fun zoneID zoneName suitable =>
       if (String.eqb hostname zoneName
           || HasSuffix hostname ("." ++ zoneName))
          && (String.eqb (snd suitable) ""
              || (String.length (snd suitable) <? String.length zoneName)%nat)
       then (zoneID, zoneName) else suitable)
    ("", "") z.

(** A domain filter that matches a name when it is one of the given
    domains or ends in a dot followed by one. *)
Definition suffix_filter (domains : list string) (name : string) : bool :=
  existsb (fun d => String.eqb name d || HasSuffix name ("." ++ d)) domains.

(** An allow-list of record types. *)
Definition allow_list (types : list string) (recordType : string) : bool :=
  existsb (String.eqb recordType) types.

(** A scripted server: what each path answers, and whether the mutating
    calls fail.  Its state counts the calls served. *)
Record Script := {
  on_zones : list string * option error;
  on_ids : list (string * (list Z * option error));
  on_record : list (string * (OvhDomainZoneRecord * option error));
  mutation_error : option error
}.

Fixpoint answer {A} (unknown : A) (url : string) (table : list (string * A))
    : A :=
  match table with
  | [] => unknown
  | (k, a) :: table' =>
      if String.eqb url k then a else answer unknown url table'
  end.

Definition empty_record : OvhDomainZoneRecord :=
  {| ID := 0; Zone := ""; Target := ""; TTL := 0;
     FieldType := ""; SubDomain := "" |}.

Definition scripted (sc : Script) : Client nat :=
  {| Get_strings := fun url n =>
       (if String.eqb url "/domain/zone" then on_zones sc
        else ([], Some "not found"), Datatypes.S n);
     Get_ints := fun url n =>
       (answer ([], Some "not found") url (on_ids sc), Datatypes.S n);
     Get_record := fun url n =>
       (answer (empty_record, Some "not found") url (on_record sc),
        Datatypes.S n);
     Post_record := fun url reqBody n =>
       ((reqBody, mutation_error sc), Datatypes.S n);
     Put_record := fun url reqBody n => (mutation_error sc, Datatypes.S n);
     Delete_path := fun url n => (mutation_error sc, Datatypes.S n) |}.

(** The zone of the spec's scenarios: [example.com] with the record
    [{id 1, www, A, 1.2.3.4, ttl 300}], a record of a type outside the
    allow-list, and the lookups of the names used below. *)
Definition www_record : OvhDomainZoneRecord :=
  {| ID := 1; Zone := "example.com"; Target := "1.2.3.4"; TTL := 300;
     FieldType := "A"; SubDomain := "www" |}.

Definition ns_record : OvhDomainZoneRecord :=
  {| ID := 2; Zone := "example.com"; Target := "dns.ovh.net."; TTL := 0;
     FieldType := "NS"; SubDomain := "" |}.

Definition example_script : Script :=
  {| on_zones := (["example.com"; "example.org"], None);
     on_ids :=
       [("/domain/zone/example.com/record", ([1; 2], None));
        ("/domain/zone/example.com/record?fieldType=CNAME&subDomain=old",
         ([4; 5], None));
        ("/domain/zone/example.com/record?fieldType=A&subDomain=www",
         ([1], None))];
     on_record :=
       [("/domain/zone/example.com/record/1", (www_record, None));
        ("/domain/zone/example.com/record/2", (ns_record, None))];
     mutation_error := None |}.

(** The same server with a record that cannot be fetched. *)
Definition broken_script : Script :=
  {| on_zones := on_zones example_script;
     on_ids := on_ids example_script;
     on_record :=
       [("/domain/zone/example.com/record/1", (www_record, None));
        ("/domain/zone/example.com/record/2",
         (empty_record, Some "timeout"))];
     mutation_error := Some "forbidden" |}.

Definition example_provider (dry : bool) (sc : Script) : OVHProvider nat :=
  {| domainFilter := suffix_filter ["example.com"];
     dryRun := dry;
     client := scripted sc |}.

Definition example_types : string -> bool := allow_list ["A"; "CNAME"; "TXT"].

Definition example_zones : zoneIDName :=
  <["example.org" := "example.org"]> (<["example.com" := "example.com"]> ∅).

Definition old_cname : Endpoint :=
  {| DNSName := "old.example.com"; Targets := [];
     RecordType := "CNAME"; RecordTTL := 0 |}.

Definition www_a (targets : list string) : Endpoint :=
  {| DNSName := "www.example.com"; Targets := targets;
     RecordType := "A"; RecordTTL := 300 |}.

Definition api_a : Endpoint :=
  {| DNSName := "api.example.com"; Targets := ["5.6.7.8"];
     RecordType := "A"; RecordTTL := 0 |}.

Definition outside_a : Endpoint :=
  {| DNSName := "www.example.net"; Targets := ["5.6.7.8"];
     RecordType := "A"; RecordTTL := 0 |}.

Definition example_changes : Changes :=
  {| Create := [api_a; outside_a; www_a []];
     UpdateOld := [];
     UpdateNew := [www_a ["9.9.9.9"]; old_cname];
     Delete := [old_cname; www_a ["1.2.3.4"; "5.6.7.8"]] |}.

(** A server that cannot be reached, and a provider whose domain filter
    matches none of the zones of the example server. *)
Definition down_script : Script :=
  {| on_zones := ([], Some "unreachable");
     on_ids := [];
     on_record := [];
     mutation_error := None |}.

Definition foreign_provider : OVHProvider nat :=
  {| domainFilter := suffix_filter ["example.net"];
     dryRun := false;
     client := scripted example_script |}.

(** A changeset all of whose endpoints reach their mutation: two to
    create, two to delete, two to update. *)
Definition busy_changes : Changes :=
  {| Create := [api_a; api_a];
     UpdateOld := [];
     UpdateNew := [www_a ["9.9.9.9"]; www_a ["8.8.8.8"]];
     Delete := [www_a []; www_a ["1.2.3.4"]] |}.

Section Provider.

Context {S : Type}.

(** [supportedRecordType] (package [provider]) and the [FindZone] method of
    [zoneIDName] are declared outside this file's source: the provider is
    verified for any such pair.  [FindZone] returns the zone's id and its
    name, in that order. *)
Variable supportedRecordType : string -> bool.
Variable FindZone : zoneIDName -> string -> string * string.

Definition client_Get_strings (p : OVHProvider S) (url : string) :=
  remote_call GET url None PStrings (Get_strings (client p) url).

Definition client_Get_ints (p : OVHProvider S) (url : string) :=
  remote_call GET url None PInts (Get_ints (client p) url).

Definition client_Get_record (p : OVHProvider S) (url : string) :=
  remote_call GET url None PRecord (Get_record (client p) url).

Definition client_Post (p : OVHProvider S) (url : string)
    (reqBody : OvhDomainZoneRecord) :=
  remote_call POST url (Some reqBody) PRecord
    (Post_record (client p) url reqBody).

Definition client_Put (p : OVHProvider S) (url : string)
    (reqBody : OvhDomainZoneRecord) : M S (unit * option error) :=
  remote_call PUT url (Some reqBody) (fun _ => PNothing)
    (fun s => let '(err, s') := Put_record (client p) url reqBody s in
              ((tt, err), s')).

Definition client_Delete (p : OVHProvider S) (url : string)
    : M S (unit * option error) :=
  remote_call DELETE url None (fun _ => PNothing)
    (fun s => let '(err, s') := Delete_path (client p) url s in
              ((tt, err), s')).

Definition newOvhDomainZoneRecord (zone subDomain fieldType target : string)
    (ttl : Z) : OvhDomainZoneRecord :=
  {| ID := 0; Zone := zone; Target := target; TTL := ttl;
     FieldType := fieldType; SubDomain := subDomain |}.

(** [getZones]: [(nil, err)] when the listing fails. *)
Definition getZones (p : OVHProvider S)
    : M S (option (list string) * option error) :=
  let* (zones, err) := client_Get_strings p "/domain/zone" in
  match err with
  | Some e => ret (None, Some e)
  | None => ret (Some zones, None)
  end.

(** Ranging over a slice; a [nil] slice has no elements. *)
Definition range {A} (l : option (list A)) : list A := default [] l.

(** The inner loop of [Records], over the record ids of one zone.  [inl]
    is the early [return nil, err]; [inr] carries [endpoints] out of the
    loop. *)
Fixpoint Records_ids (p : OVHProvider S) (zone : string) (recordIDs : list Z)
    (endpoints : list Endpoint) : M S (error + list Endpoint) :=
  match recordIDs with
  | [] => ret (inr endpoints)
  | recordID :: recordIDs' =>
      let* (record, err) :=
        client_Get_record p
          (Sprintf "/domain/zone/%s/record/%d" [AString zone; AInt recordID]) in
      match err with
      | Some e => ret (inl e)
      | None =>
          if supportedRecordType (FieldType record) then
            let endpoint :=
              NewEndpointWithTTL
                (formatOVHDNSName (SubDomain record) zone)
                (FieldType record)
                (TTL_of_int (TTL record))
                [Target record] in
            Records_ids p zone recordIDs' (endpoints ++ [endpoint])
          else Records_ids p zone recordIDs' endpoints
      end
  end.

(** The outer loop of [Records], over the zones. *)
Fixpoint Records_zones (p : OVHProvider S) (zones : list string)
    (endpoints : list Endpoint) : M S (error + list Endpoint) :=
  match zones with
  | [] => ret (inr endpoints)
  | zone :: zones' =>
      if domainFilter p zone then
        let* (recordIDs, err) :=
          client_Get_ints p
            (Sprintf "/domain/zone/%s/record" [AString zone]) in
        match err with
        | Some e => ret (inl e)
        | None =>
            let* r := Records_ids p zone recordIDs endpoints in
            match r with
            | inl e => ret (inl e)
            | inr endpoints' => Records_zones p zones' endpoints'
            end
        end
      else Records_zones p zones' endpoints
  end.

Definition Records (p : OVHProvider S)
    : M S (option (list Endpoint) * option error) :=
  let endpoints := [] in
  let* (zones, err) := getZones p in
  match err with
  | Some e => ret (None, Some e)
  | None =>
      let* r := Records_zones p (range zones) endpoints in
      match r with
      | inl e => ret (None, Some e)
      | inr endpoints' => ret (Some endpoints', None)
      end
  end.

(** [endpoint.Targets[0]]; every use is guarded by [len(Targets) == 1]. *)
Definition first_target (endpoint : Endpoint) : string :=
  default "" (Targets endpoint !! 0%nat).

Definition first_id (ids : list Z) : Z := default 0 (ids !! 0%nat).

Definition lookup_path (zoneName : string) (endpoint : Endpoint) : string :=
  Sprintf "/domain/zone/%s/record?fieldType=%s&subDomain=%s"
    [AString zoneName; AString (RecordType endpoint);
     AString (getOVHSubDomain (DNSName endpoint) zoneName)].

(** One iteration of the loop of [createRecords]; where the code says
    [continue] the iteration ends. *)
Definition createRecords_body (p : OVHProvider S)
    (zoneNameIDMapper : zoneIDName) (endpoint : Endpoint) : M S unit :=
  if negb (domainFilter p (DNSName endpoint)) then
    log_Printf "Skipping creation at OVH of endpoint DNSName: '%s' RecordType: '%s', it does not match against Domain filters"
      [LString (DNSName endpoint); LString (RecordType endpoint)]
  else
    let '(zoneName, _) := FindZone zoneNameIDMapper (DNSName endpoint) in
    if negb (String.eqb zoneName "") then
      if negb (length (Targets endpoint) =? 1)%nat then
        log_Printf "Cannot create OVH of endpoint DNSName: '%s' RecordType: '%s', cannot have multiple Targets"
          [LString (DNSName endpoint); LString (RecordType endpoint)]
      else
        let record :=
          {| ID := 0; Zone := "";
             Target := first_target endpoint;
             TTL := int_of_TTL (RecordTTL endpoint);
             FieldType := RecordType endpoint;
             SubDomain := getOVHSubDomain (DNSName endpoint) zoneName |} in
        log_Printf "Create new Endpoint at OVH - Zone: '%s', DNSName: '%s', RecordType: '%s', Targets: '%+v'"
          [LString zoneName; LString (DNSName endpoint);
           LString (RecordType endpoint); LStrings (Targets endpoint)];;
        if dryRun p then ret tt
        else
          let* (newRecord, err) :=
            client_Post p
              (Sprintf "/domain/zone/%s/record" [AString zoneName]) record in
          match err with
          | Some e =>
              log_Printf "Failed to create OVH endpoint DNSName: '%s' RecordType: '%s' for zone: '%s'"
                [LString (DNSName endpoint); LString (RecordType endpoint);
                 LString zoneName];;
              log_Printf "Error was: %s" [LError err]
          | None => ret tt
          end
    else
      log_Printf "No matching zone for endpoint addition DNSName: '%s' RecordType: '%s'"
        [LString (DNSName endpoint); LString (RecordType endpoint)].

Fixpoint createRecords (p : OVHProvider S) (zoneNameIDMapper : zoneIDName)
    (endpoints : list Endpoint) : M S unit :=
  match endpoints with
  | [] => ret tt
  | endpoint :: endpoints' =>
      createRecords_body p zoneNameIDMapper endpoint;;
      createRecords p zoneNameIDMapper endpoints'
  end.

(** One iteration of the loop of [deleteRecords]. *)
Definition deleteRecords_body (p : OVHProvider S)
    (zoneNameIDMapper : zoneIDName) (endpoint : Endpoint) : M S unit :=
  if negb (domainFilter p (DNSName endpoint)) then
    log_Printf "Skipping delete at OVH of endpoint DNSName: '%s' RecordType: '%s', it does not match against Domain filters"
      [LString (DNSName endpoint); LString (RecordType endpoint)]
  else
    let '(zoneName, _) := FindZone zoneNameIDMapper (DNSName endpoint) in
    if negb (String.eqb zoneName "") then
      let* (ids, err) := client_Get_ints p (lookup_path zoneName endpoint) in
      if bool_decide (err <> None) || negb (length ids =? 1)%nat then
        log_Printf "Cannot to delete OVH endpoint DNSName: '%s' RecordType: '%s', Endpoint does not exist or id is ambiguous"
          [LString (DNSName endpoint); LString (RecordType endpoint)];;
        log_Printf "Error was: %s" [LError err]
      else
        log_Printf "Delete Endpoint at OVH - Zone: '%s', DNSName: '%s', RecordType: '%s', Targets: '%+v'"
          [LString zoneName; LString (DNSName endpoint);
           LString (RecordType endpoint); LStrings (Targets endpoint)];;
        if dryRun p then ret tt
        else
          let* (_, err) :=
            client_Delete p
              (Sprintf "/domain/zone/%s/record/%d"
                 [AString zoneName; AInt (first_id ids)]) in
          match err with
          | Some e =>
              log_Printf "Failed to delete OVH endpoint DNSName: '%s' RecordType: '%s' for zone: '%s'"
                [LString (DNSName endpoint); LString (RecordType endpoint);
                 LString zoneName];;
              log_Printf "Error was: %s" [LError err]
          | None => ret tt
          end
    else
      log_Printf "No matching zone for endpoint addition DNSName: '%s' RecordType: '%s'"
        [LString (DNSName endpoint); LString (RecordType endpoint)].

Fixpoint deleteRecords (p : OVHProvider S) (zoneNameIDMapper : zoneIDName)
    (endpoints : list Endpoint) : M S unit :=
  match endpoints with
  | [] => ret tt
  | endpoint :: endpoints' =>
      deleteRecords_body p zoneNameIDMapper endpoint;;
      deleteRecords p zoneNameIDMapper endpoints'
  end.

(** One iteration of the loop of [updateRecords]. *)
Definition updateRecords_body (p : OVHProvider S)
    (zoneNameIDMapper : zoneIDName) (endpoint : Endpoint) : M S unit :=
  if negb (domainFilter p (DNSName endpoint)) then
    log_Printf "Skipping update at OVH of endpoint DNSName: '%s' RecordType: '%s', it does not match against Domain filters"
      [LString (DNSName endpoint); LString (RecordType endpoint)]
  else
    let '(zoneName, _) := FindZone zoneNameIDMapper (DNSName endpoint) in
    if negb (String.eqb zoneName "") then
      if negb (length (Targets endpoint) =? 1)%nat then
        log_Printf "Cannot update OVH of endpoint DNSName: '%s' RecordType: '%s', cannot have multiple Targets"
          [LString (DNSName endpoint); LString (RecordType endpoint)]
      else
        let* (ids, err) := client_Get_ints p (lookup_path zoneName endpoint) in
        if bool_decide (err <> None) || negb (length ids =? 1)%nat then
          log_Printf "Cannot to delete OVH endpoint DNSName: '%s' RecordType: '%s', Endpoint does not exist or id is ambiguous"
            [LString (DNSName endpoint); LString (RecordType endpoint)];;
          log_Printf "Error was: %s" [LError err]
        else
          let record :=
            {| ID := 0; Zone := "";
               Target := first_target endpoint;
               TTL := int_of_TTL (RecordTTL endpoint);
               FieldType := RecordType endpoint;
               SubDomain := getOVHSubDomain (DNSName endpoint) zoneName |} in
          log_Printf "Update Endpoint at OVH - Zone: '%s', DNSName: '%s', RecordType: '%s', Targets: '%+v'"
            [LString zoneName; LString (DNSName endpoint);
             LString (RecordType endpoint); LStrings (Targets endpoint)];;
          if dryRun p then ret tt
          else
            let* (_, err) :=
              client_Put p
                (Sprintf "/domain/zone/%s/record/%d"
                   [AString zoneName; AInt (first_id ids)]) record in
            match err with
            | Some e =>
                log_Printf "Failed to update OVH endpoint DNSName: '%s' RecordType: '%s' for zone: '%s'"
                  [LString (DNSName endpoint); LString (RecordType endpoint);
                   LString zoneName];;
                log_Printf "Error was: %s" [LError err]
            | None => ret tt
            end
    else
      log_Printf "No matching zone for endpoint addition DNSName: '%s' RecordType: '%s'"
        [LString (DNSName endpoint); LString (RecordType endpoint)].

Fixpoint updateRecords (p : OVHProvider S) (zoneNameIDMapper : zoneIDName)
    (endpoints : list Endpoint) : M S unit :=
  match endpoints with
  | [] => ret tt
  | endpoint :: endpoints' =>
      updateRecords_body p zoneNameIDMapper endpoint;;
      updateRecords p zoneNameIDMapper endpoints'
  end.

(** The loop [for _, z := range zones { zoneNameIDMapper[z] = z }]. *)
Definition fill_mapper (zones : list string) (zoneNameIDMapper : zoneIDName)
    : zoneIDName :=
  foldl (fun m z => <[z := z]> m) zoneNameIDMapper zones.

Definition ApplyChanges (p : OVHProvider S) (changes : Changes)
    : M S (option error) :=
  let zoneNameIDMapper : zoneIDName := ∅ in
  let* (zones, err) := getZones p in
  match err with
  | Some e => ret (Some e)
  | None =>
      let zoneNameIDMapper := fill_mapper (range zones) zoneNameIDMapper in
      createRecords p zoneNameIDMapper (Create changes);;
      deleteRecords p zoneNameIDMapper (Delete changes);;
      updateRecords p zoneNameIDMapper (UpdateNew changes);;
      ret None
  end.

(** ** What the loops are expected to ask of the server *)

(** The zone a name is filed under, as the loops read it off [FindZone]. *)
Definition zone_of (m : zoneIDName) (endpoint : Endpoint) : string :=
  fst (FindZone m (DNSName endpoint)).

(** An endpoint passes the two checks shared by the three loops. *)
Definition in_scope (p : OVHProvider S) (m : zoneIDName)
    (endpoint : Endpoint) : bool :=
  domainFilter p (DNSName endpoint)
  && negb (String.eqb (zone_of m endpoint) "").

Definition single_target (endpoint : Endpoint) : bool :=
  (length (Targets endpoint) =? 1)%nat.

Definition create_posts (p : OVHProvider S) (m : zoneIDName)
    (endpoints : list Endpoint) : list (Method * string) :=
  flat_map
    (fun e =>
       if in_scope p m e && single_target e && negb (dryRun p)
       then [(POST, Sprintf "/domain/zone/%s/record" [AString (zone_of m e)])]
       else [])
    endpoints.

Definition delete_lookups (p : OVHProvider S) (m : zoneIDName)
    (endpoints : list Endpoint) : list (Method * string) :=
  flat_map
    (fun e =>
       if in_scope p m e then [(GET, lookup_path (zone_of m e) e)] else [])
    endpoints.

Definition update_lookups (p : OVHProvider S) (m : zoneIDName)
    (endpoints : list Endpoint) : list (Method * string) :=
  flat_map
    (fun e =>
       if in_scope p m e && single_target e
       then [(GET, lookup_path (zone_of m e) e)] else [])
    endpoints.

(** The first call made for an endpoint is a [POST] (create) or a lookup
    [GET] (delete, update); [PUT] and [DELETE] only follow a lookup. *)
Definition attempts (evs : list Event) : list (Method * string) :=
  List.filter (fun r => match r.1 with GET | POST => true | _ => false end)
    (requests evs).

(** An outcome with more events in front of its own. *)
Definition after {A} (evs : list Event) (o : Out S A) : Out S A :=
  {| val := val o; remote := remote o; events := evs ++ events o |}.

(** The call record of a lookup, a record fetch and a zone listing. *)
Definition get_call (url : string) (answer : Payload) (err : option error)
    : Call :=
  {| method := GET; path := url; body := None;
     response := answer; failure := err |}.

Definition delete_call (url : string) (err : option error) : Call :=
  {| method := DELETE; path := url; body := None;
     response := PNothing; failure := err |}.

(** The endpoint the spec describes for a record of a zone. *)
Definition endpoint_of_record (zone : string) (r : OvhDomainZoneRecord)
    : Endpoint :=
  {| DNSName :=
       if String.eqb (SubDomain r) "" then zone
       else SubDomain r ++ "." ++ zone;
     Targets := [Target r];
     RecordType := FieldType r;
     RecordTTL := TTL r |}.

Definition endpoints_of_records (zone : string)
    (recs : list (Z * OvhDomainZoneRecord)) : list Endpoint :=
  flat_map
    (fun ir =>
       if supportedRecordType (FieldType ir.2)
       then [endpoint_of_record zone ir.2] else [])
    recs.

(** The events of reading one zone: the listing of its record ids, then
    one successful fetch per id. *)
Definition fetch_events (zone : string)
    (recs : list (Z * OvhDomainZoneRecord)) : list Event :=
  map
    (fun ir =>
       Remote
         (get_call
            (Sprintf "/domain/zone/%s/record/%d" [AString zone; AInt ir.1])
            (PRecord ir.2) None))
    recs.

Definition zone_events (zr : string * list (Z * OvhDomainZoneRecord))
    : list Event :=
  Remote
    (get_call (Sprintf "/domain/zone/%s/record" [AString zr.1])
       (PInts (map fst zr.2)) None)
  :: fetch_events zr.1 zr.2.

(** Every failed call of the write path is followed by two log lines, the
    second of which reports the error. *)
Definition reports (err : option error) (l : LogEntry) : bool :=
  String.eqb (format l) "Error was: %s"
  && match operands l with
     | [LError err'] => bool_decide (err' = err)
     | _ => false
     end.

Fixpoint failures_logged (evs : list Event) : bool :=
  match evs with
  | [] => true
  | Remote c :: evs' =>
      match failure c, evs' with
      | None, _ => true
      | Some e, Logged _ :: Logged l :: _ => reports (Some e) l
      | Some _, _ => false
      end
      && failures_logged evs'
  | Logged _ :: evs' => failures_logged evs'
  end.


Definition reads (evs : list Event) : list (Method * string) :=
  List.filter (fun r => match r.1 with GET => true | _ => false end)
    (requests evs).

Definition with_dryRun (dry : bool) (p : OVHProvider S) : OVHProvider S :=
  {| domainFilter := domainFilter p; dryRun := dry; client := client p |}.

(** The reads of [ApplyChanges] from a server state: the zone listing,
    then, when it succeeds, the lookups of the delete and update lists. *)
Definition expected_reads (p : OVHProvider S) (changes : Changes) (s : S)
    : list (Method * string) :=
  let listing := (Get_strings (client p) "/domain/zone" s).1 in
  (GET, "/domain/zone")
  :: match listing.2 with
     | Some _ => []
     | None =>
         let m := fill_mapper listing.1 ∅ in
         (delete_lookups p m (Delete changes)
          ++ update_lookups p m (UpdateNew changes))%list
     end.

(** ** Further notions on runs *)

Definition succeeded (c : Call) : Prop := failure c = None.

(** An event that is a [GET]; a log line is not. *)
Definition is_read (ev : Event) : Prop :=
  match ev with
  | Remote c => method c = GET
  | Logged _ => False
  end.

Definition error_of {A} (r : error + A) : option error :=
  match r with
  | inl e => Some e
  | inr _ => None
  end.

(** A run that returns [err] stopped at its first failed call: with no
    error every call succeeded; with an error [e] the last event is a
    call that failed with [e] and every call before it succeeded. *)
Definition stopped_at (err : option error) (evs : list Event) : Prop :=
  match err with
  | None => Forall succeeded (calls_of evs)
  | Some e =>
      exists pre c,
        evs = (pre ++ [Remote c])%list
        /\ failure c = Some e
        /\ Forall succeeded (calls_of pre)
  end.

(** A [DELETE] or [PUT] takes its id from the call just before it: a
    lookup in the same zone that succeeded and returned that id alone. *)
Definition justifies (prev : option Call) (c : Call) : Prop :=
  match method c with
  | DELETE | PUT =>
      exists lookup zoneName e id,
        prev = Some lookup
        /\ method lookup = GET
        /\ path lookup = lookup_path zoneName e
        /\ response lookup = PInts [id]
        /\ failure lookup = None
        /\ path c
           = Sprintf "/domain/zone/%s/record/%d"
               [AString zoneName; AInt id]
  | _ => True
  end.

Fixpoint ids_looked_up (prev : option Call) (cs : list Call) : Prop :=
  match cs with
  | [] => True
  | c :: cs' => justifies prev c /\ ids_looked_up (Some c) cs'
  end.

Definition mutations (evs : list Event) : list (Method * string) :=
  List.filter (fun r => match r.1 with GET => false | _ => true end)
    (requests evs).

Definition post_call (url : string) (reqBody newRecord : OvhDomainZoneRecord)
    (err : option error) : Call :=
  {| method := POST; path := url; body := Some reqBody;
     response := PRecord newRecord; failure := err |}.

Definition put_call (url : string) (reqBody : OvhDomainZoneRecord)
    (err : option error) : Call :=
  {| method := PUT; path := url; body := Some reqBody;
     response := PNothing; failure := err |}.

(** The record the create and update loops build for an endpoint with the
    single target [target]: no id, no zone. *)
Definition record_of_endpoint (zoneName target : string) (e : Endpoint)
    : OvhDomainZoneRecord :=
  {| ID := 0; Zone := ""; Target := target;
     TTL := int_of_TTL (RecordTTL e);
     FieldType := RecordType e;
     SubDomain := getOVHSubDomain (DNSName e) zoneName |}.

(** A name lies in a zone when it is the zone's name or ends in a dot
    followed by it. *)
Definition in_zone (name zone : string) : Prop :=
  name = zone \/ HasSuffix name ("." ++ zone) = true.

(** ** The calls of the write path, from the words of the spec *)

(** What one endpoint asks of the server and the state it leaves, written
    from the spec's description of create, delete and update, to be
    compared with the loops.  Nothing here depends on what happened to
    the endpoints before: a call that failed is recorded with its error
    and the next endpoint is served from the state that call left. *)
Definition create_step (p : OVHProvider S) (m : zoneIDName) (e : Endpoint)
    (s : S) : list Call * S :=
  if in_scope p m e && single_target e && negb (dryRun p) then
    let url := Sprintf "/domain/zone/%s/record" [AString (zone_of m e)] in
    let reqBody := record_of_endpoint (zone_of m e) (first_target e) e in
    let '((newRecord, err), s1) := Post_record (client p) url reqBody s in
    ([post_call url reqBody newRecord err], s1)
  else ([], s).

Definition delete_step (p : OVHProvider S) (m : zoneIDName) (e : Endpoint)
    (s : S) : list Call * S :=
  if in_scope p m e then
    let zone := zone_of m e in
    let '((ids, err), s1) := Get_ints (client p) (lookup_path zone e) s in
    let lookup := get_call (lookup_path zone e) (PInts ids) err in
    match err, ids with
    | None, [id] =>
        if dryRun p then ([lookup], s1)
        else
          let url :=
            Sprintf "/domain/zone/%s/record/%d" [AString zone; AInt id] in
          let '(derr, s2) := Delete_path (client p) url s1 in
          ([lookup; delete_call url derr], s2)
    | _, _ => ([lookup], s1)
    end
  else ([], s).

Definition update_step (p : OVHProvider S) (m : zoneIDName) (e : Endpoint)
    (s : S) : list Call * S :=
  if in_scope p m e && single_target e then
    let zone := zone_of m e in
    let '((ids, err), s1) := Get_ints (client p) (lookup_path zone e) s in
    let lookup := get_call (lookup_path zone e) (PInts ids) err in
    match err, ids with
    | None, [id] =>
        if dryRun p then ([lookup], s1)
        else
          let url :=
            Sprintf "/domain/zone/%s/record/%d" [AString zone; AInt id] in
          let reqBody := record_of_endpoint zone (first_target e) e in
          let '(perr, s2) := Put_record (client p) url reqBody s1 in
          ([lookup; put_call url reqBody perr], s2)
    | _, _ => ([lookup], s1)
    end
  else ([], s).

(** Every endpoint of a list takes its step, in order, each from the
    state the one before left. *)
Fixpoint steps (step : Endpoint -> S -> list Call * S)
    (endpoints : list Endpoint) (s : S) : list Call * S :=
  match endpoints with
  | [] => ([], s)
  | e :: endpoints' =>
      let '(cs, s1) := step e s in
      let '(cs', s2) := steps step endpoints' s1 in
      ((cs ++ cs')%list, s2)
  end.

(** The calls of [ApplyChanges]: the zone listing and, when it succeeds,
    the steps of the create list, then of the delete list, then of the
    update list. *)
Definition expected_calls (p : OVHProvider S) (changes : Changes) (s : S)
    : list Call :=
  let '((zones, err), s1) := Get_strings (client p) "/domain/zone" s in
  get_call "/domain/zone" (PStrings zones) err
  :: match err with
     | Some _ => []
     | None =>
         let m := fill_mapper zones ∅ in
         let '(created, s2) := steps (create_step p m) (Create changes) s1 in
         let '(deleted, s3) := steps (delete_step p m) (Delete changes) s2 in
         let '(updated, _) :=
           steps (update_step p m) (UpdateNew changes) s3 in
         (created ++ deleted ++ updated)%list
     end.

(** * Properties *)

(** ** The name helpers *)

Section StringFacts.

Local Open Scope nat_scope.

Lemma string_length_app (a b : string) :
  String.length (a ++ b) = String.length a + String.length b.
Proof. induction a as [|c a IH]; simpl; [reflexivity | now rewrite IH]. Qed.

Lemma substring_0_0 (s : string) : substring 0 0 s = "".
Proof. destruct s; reflexivity. Qed.

Lemma substring_whole (s : string) : substring 0 (String.length s) s = s.
Proof. induction s as [|c s IH]; simpl; [reflexivity | now rewrite IH]. Qed.

Lemma substring_prefix_app (a b : string) :
  substring 0 (String.length a) (a ++ b) = a.
Proof.
  induction a as [|c a IH]; simpl.
  - apply substring_0_0.
  - now rewrite IH.
Qed.

Lemma substring_suffix_app (a b : string) :
  substring (String.length a) (String.length b) (a ++ b) = b.
Proof.
  induction a as [|c a IH]; simpl.
  - apply substring_whole.
  - exact IH.
Qed.

Lemma substring_0_empty (n : nat) (s : string) :
  substring 0 n s = "" -> n = 0 \/ s = "".
Proof.
  destruct n as [|n]; [now left|].
  destruct s as [|c s]; [now right|]. simpl. discriminate.
Qed.

Lemma HasSuffix_app (a b : string) : HasSuffix (a ++ b) b = true.
Proof.
  unfold HasSuffix. rewrite string_length_app.
  replace (String.length a + String.length b - String.length b)
    with (String.length a) by lia.
  rewrite substring_suffix_app, String.eqb_refl, andb_true_r.
  apply Nat.leb_le. lia.
Qed.

Lemma TrimSuffix_app (a b : string) : TrimSuffix (a ++ b) b = a.
Proof.
  unfold TrimSuffix. rewrite HasSuffix_app, string_length_app.
  replace (String.length a + String.length b - String.length b)
    with (String.length a) by lia.
  apply substring_prefix_app.
Qed.

Lemma TrimSuffix_self (s : string) : TrimSuffix s s = "".
Proof. exact (TrimSuffix_app "" s). Qed.

Lemma TrimSuffix_of_empty (suffix : string) : TrimSuffix "" suffix = "".
Proof. unfold TrimSuffix. destruct (HasSuffix "" suffix); reflexivity. Qed.

(** Trimming leaves nothing only of the empty string and of the suffix
    itself. *)
Lemma TrimSuffix_empty_iff (s suffix : string) :
  TrimSuffix s suffix = "" <-> s = "" \/ s = suffix.
Proof.
  split.
  - unfold TrimSuffix, HasSuffix.
    destruct (String.length suffix <=? String.length s) eqn:Hlen; simpl;
      [|now left].
    destruct (String.eqb_spec
                (substring (String.length s - String.length suffix)
                   (String.length suffix) s) suffix) as [Hsuf|_];
      [|now left].
    intros Hpre. apply Nat.leb_le in Hlen.
    destruct (substring_0_empty _ _ Hpre) as [Hz|Hs]; [|now left].
    right. rewrite Hz in Hsuf.
    replace (String.length suffix) with (String.length s) in Hsuf at 1 by lia.
    now rewrite substring_whole in Hsuf.
  - intros [->| ->]; [apply TrimSuffix_of_empty | apply TrimSuffix_self].
Qed.

Lemma string_app_empty_r (s : string) : s ++ "" = s.
Proof.
  induction s as [|c s IH]; [reflexivity|].
  change (String c (s ++ "") = String c s). now rewrite IH.
Qed.

Lemma string_app_neq_r (a b : string) : a <> "" -> a ++ b <> b.
Proof.
  intros Ha Heq. apply (f_equal String.length) in Heq.
  rewrite string_length_app in Heq. destruct a; [congruence | simpl in Heq; lia].
Qed.

End StringFacts.

Lemma Sprintf_dot (a b : string) :
  Sprintf "%s.%s" [AString a; AString b] = a ++ "." ++ b.
Proof.
  change (a ++ String "." (b ++ "") = a ++ String "." b).
  now rewrite string_app_empty_r.
Qed.

Lemma formatOVHDNSName_apex (zoneName : string) :
  formatOVHDNSName "" zoneName = zoneName.
Proof. reflexivity. Qed.

Lemma formatOVHDNSName_sub (recordName zoneName : string) :
  recordName <> "" ->
  formatOVHDNSName recordName zoneName = recordName ++ "." ++ zoneName.
Proof.
  intros Hne. unfold formatOVHDNSName.
  destruct (String.eqb_spec recordName "") as [->|_]; [congruence|].
  apply Sprintf_dot.
Qed.

Example formatOVHDNSName_www :
  formatOVHDNSName "www" "example.com" = "www.example.com".
Proof. reflexivity. Qed.

Example getOVHSubDomain_www :
  getOVHSubDomain "www.example.com" "example.com" = "www".
Proof. reflexivity. Qed.

Example getOVHSubDomain_apex :
  getOVHSubDomain "example.com" "example.com" = "".
Proof. reflexivity. Qed.

Example Sprintf_record_path :
  Sprintf "/domain/zone/%s/record/%d" [AString "example.com"; AInt 42]
  = "/domain/zone/example.com/record/42".
Proof. vm_compute. reflexivity. Qed.

(** A name that is not fully qualified: [".example.com"], whose first
    label is empty, differs from the zone [example.com] and still has the
    empty sub-domain. *)
Lemma getOVHSubDomain_empty_not_only_apex :
  ~ (getOVHSubDomain ".example.com" "example.com" = ""
     <-> ".example.com" = "example.com").
Proof. intros [H _]. specialize (H eq_refl). discriminate H. Qed.

(** On all strings, [getOVHSubDomain f z] is the empty string if and only
    if [f] equals [z], or [f] is the empty string, or [f] is ["." ++ z]. *)
Lemma getOVHSubDomain_empty_iff (DNSName zoneName : string) :
  getOVHSubDomain DNSName zoneName = ""
  <-> DNSName = zoneName \/ DNSName = "" \/ DNSName = "." ++ zoneName.
Proof.
  unfold getOVHSubDomain.
  destruct (String.eqb_spec DNSName zoneName) as [->|Hne]; simpl.
  - split; [now left | reflexivity].
  - rewrite TrimSuffix_empty_iff. split.
    + intros [H|H]; [right; now left | right; now right].
    + intros [H|[H|H]]; [contradiction | now left | now right].
Qed.

(** C8: for every fully-qualified name [f] (a name that is not empty and
    whose first label is not empty) and every zone name [z],
    [getOVHSubDomain f z] is the empty string if and only if [f] equals
    [z]. *)
Theorem getOVHSubDomain_empty_iff_apex (DNSName zoneName : string) :
  has_first_label DNSName ->
  (getOVHSubDomain DNSName zoneName = "" <-> DNSName = zoneName).
Proof.
  intros Hfq. rewrite getOVHSubDomain_empty_iff. split; [|now left].
  intros [H|[H|H]]; [exact H | |]; rewrite H in Hfq.
  - destruct Hfq.
  - now elim Hfq.
Qed.

(** C9: extracting the sub-domain of a formatted name gives the
    sub-domain back, the empty one included. *)
Theorem getOVHSubDomain_formatOVHDNSName (subDomain zoneName : string) :
  getOVHSubDomain (formatOVHDNSName subDomain zoneName) zoneName = subDomain.
Proof.
  unfold formatOVHDNSName.
  destruct (String.eqb_spec subDomain "") as [->|Hne].
  - unfold getOVHSubDomain. now rewrite String.eqb_refl.
  - rewrite Sprintf_dot. unfold getOVHSubDomain.
    assert (Hlonger : subDomain ++ "." ++ zoneName <> zoneName).
    { intros Heq. apply (f_equal String.length) in Heq.
      rewrite string_length_app, (string_length_app "." zoneName) in Heq.
      destruct subDomain; [congruence | simpl in Heq; lia]. }
    destruct (String.eqb_spec (subDomain ++ "." ++ zoneName) zoneName)
      as [Heq|_]; [contradiction|]. simpl negb. cbv iota.
    apply (TrimSuffix_app subDomain ("." ++ zoneName)).
Qed.

(** ** Events and calls *)

Lemma calls_of_app (a b : list Event) :
  calls_of (a ++ b) = (calls_of a ++ calls_of b)%list.
Proof. unfold calls_of. apply omap_app. Qed.

Lemma calls_of_logged l evs : calls_of (Logged l :: evs) = calls_of evs.
Proof. reflexivity. Qed.

Lemma calls_of_remote c evs : calls_of (Remote c :: evs) = c :: calls_of evs.
Proof. reflexivity. Qed.

Lemma requests_app (a b : list Event) :
  requests (a ++ b) = (requests a ++ requests b)%list.
Proof. unfold requests. now rewrite calls_of_app, map_app. Qed.

Lemma attempts_app (a b : list Event) :
  attempts (a ++ b) = (attempts a ++ attempts b)%list.
Proof. unfold attempts. now rewrite requests_app, List.filter_app. Qed.

Lemma failures_logged_app (a b : list Event) :
  failures_logged a = true ->
  failures_logged (a ++ b) = failures_logged b.
Proof.
  induction a as [|ev a IH]; [reflexivity|].
  destruct ev as [c|l]; simpl; [|exact IH].
  intros H. apply andb_true_iff in H as [Hc Ha].
  rewrite (IH Ha). destruct (failure c) as [e|]; [|reflexivity].
  destruct a as [|[c1|l1] [|[c2|l2] a]]; try discriminate Hc.
  simpl. now rewrite Hc.
Qed.

Lemma createRecords_cons p m e rest (s : S) :
  createRecords p m (e :: rest) s
  = after (events (createRecords_body p m e s))
      (createRecords p m rest (remote (createRecords_body p m e s))).
Proof. reflexivity. Qed.

Lemma deleteRecords_cons p m e rest (s : S) :
  deleteRecords p m (e :: rest) s
  = after (events (deleteRecords_body p m e s))
      (deleteRecords p m rest (remote (deleteRecords_body p m e s))).
Proof. reflexivity. Qed.

Lemma updateRecords_cons p m e rest (s : S) :
  updateRecords p m (e :: rest) s
  = after (events (updateRecords_body p m e s))
      (updateRecords p m rest (remote (updateRecords_body p m e s))).
Proof. reflexivity. Qed.

(** A loop over a concatenation runs the first part, then the second
    from the state the first left: an iteration at any position starts
    from the state of the ones before it, whatever they did. *)
Lemma loop_app (body : Endpoint -> M S unit)
    (loop : list Endpoint -> M S unit) :
  loop [] = ret tt ->
  (forall e es, loop (e :: es) = bind (body e) (fun _ => loop es)) ->
  forall l1 l2 s,
    loop (l1 ++ l2)%list s
    = after (events (loop l1 s)) (loop l2 (remote (loop l1 s))).
Proof.
  intros Hloop0 Hloop1 l1 l2.
  induction l1 as [|e l1 IH]; intros s.
  - rewrite Hloop0. unfold after, ret. cbn [val remote events app].
    now destruct (loop l2 s).
  - change ((e :: l1) ++ l2)%list with (e :: (l1 ++ l2))%list.
    rewrite !Hloop1. unfold bind, after. rewrite IH. unfold after.
    cbn [val remote events]. now rewrite app_assoc.
Qed.

Lemma createRecords_app p m l1 l2 (s : S) :
  createRecords p m (l1 ++ l2) s
  = after (events (createRecords p m l1 s))
      (createRecords p m l2 (remote (createRecords p m l1 s))).
Proof. now apply (loop_app (createRecords_body p m)). Qed.

Lemma deleteRecords_app p m l1 l2 (s : S) :
  deleteRecords p m (l1 ++ l2) s
  = after (events (deleteRecords p m l1 s))
      (deleteRecords p m l2 (remote (deleteRecords p m l1 s))).
Proof. now apply (loop_app (deleteRecords_body p m)). Qed.

Lemma updateRecords_app p m l1 l2 (s : S) :
  updateRecords p m (l1 ++ l2) s
  = after (events (updateRecords p m l1 s))
      (updateRecords p m l2 (remote (updateRecords p m l1 s))).
Proof. now apply (loop_app (updateRecords_body p m)). Qed.

(** ** Endpoints outside the domain filter *)

(** C7: an endpoint whose name the domain filter rejects costs one log
    line in each of the three loops: no remote call is made for it, the
    server is left as it was, and the loop goes on with the next
    endpoint. *)
Theorem filtered_endpoint_no_call p m e rest (s : S) :
  domainFilter p (DNSName e) = false ->
  (exists l, createRecords p m (e :: rest) s
             = after [Logged l] (createRecords p m rest s))
  /\ (exists l, deleteRecords p m (e :: rest) s
                = after [Logged l] (deleteRecords p m rest s))
  /\ (exists l, updateRecords p m (e :: rest) s
                = after [Logged l] (updateRecords p m rest s)).
Proof.
  intros Hf.
  rewrite createRecords_cons, deleteRecords_cons, updateRecords_cons.
  unfold createRecords_body, deleteRecords_body, updateRecords_body.
  rewrite Hf. simpl. repeat split; eexists; reflexivity.
Qed.

(** ** Endpoints without exactly one target *)

(** C6: in the create and the update loop an endpoint whose number of
    targets is not one costs one log line: no remote call, neither lookup
    nor mutation, is made for it, and the loop goes on with the next
    endpoint. *)
Theorem multi_target_endpoint_no_call p m e rest (s : S) :
  length (Targets e) <> 1%nat ->
  (exists l, createRecords p m (e :: rest) s
             = after [Logged l] (createRecords p m rest s))
  /\ (exists l, updateRecords p m (e :: rest) s
                = after [Logged l] (updateRecords p m rest s)).
Proof.
  intros Hlen. apply Nat.eqb_neq in Hlen.
  rewrite createRecords_cons, updateRecords_cons.
  unfold createRecords_body, updateRecords_body.
  rewrite Hlen. simpl.
  destruct (domainFilter p (DNSName e)); simpl;
    destruct (FindZone m (DNSName e)) as [zoneName zoneID];
    destruct (String.eqb zoneName ""); simpl;
    split; eexists; reflexivity.
Qed.

(** ** Lookups that do not single out one record *)

(** C5: when the lookup of the delete or update loop fails or returns a
    number of ids other than one, the iteration makes that lookup and
    nothing else: two log lines follow, no [DELETE] or [PUT], and the loop
    goes on with the next endpoint from the state the lookup left. *)
Theorem ambiguous_lookup_no_mutation
    p m e rest (s : S) zoneName zoneID ids err s' :
  domainFilter p (DNSName e) = true ->
  FindZone m (DNSName e) = (zoneName, zoneID) ->
  zoneName <> "" ->
  Get_ints (client p) (lookup_path zoneName e) s = ((ids, err), s') ->
  err <> None \/ length ids <> 1%nat ->
  (exists l1 l2,
      deleteRecords p m (e :: rest) s
      = after [Remote (get_call (lookup_path zoneName e) (PInts ids) err);
               Logged l1; Logged l2]
          (deleteRecords p m rest s'))
  /\ (length (Targets e) = 1%nat ->
      exists l1 l2,
        updateRecords p m (e :: rest) s
        = after [Remote (get_call (lookup_path zoneName e) (PInts ids) err);
                 Logged l1; Logged l2]
            (updateRecords p m rest s')).
Proof.
  intros Hf Hz Hne Hget Hbad.
  apply String.eqb_neq in Hne.
  assert (Hcond : bool_decide (err <> None) || negb (length ids =? 1)%nat
                  = true).
  { apply orb_true_iff. destruct Hbad as [He|Hl].
    - left. now apply bool_decide_eq_true.
    - right. apply negb_true_iff. now apply Nat.eqb_neq. }
  split; [|intros Hone; apply Nat.eqb_eq in Hone].
  - rewrite deleteRecords_cons.
    unfold deleteRecords_body, client_Get_ints, remote_call, bind.
    rewrite Hf, Hz. cbn [negb]. cbv beta iota.
    rewrite Hne. cbn [negb]. cbv beta iota.
    rewrite Hget. cbn [val remote events]. cbv beta iota. rewrite Hcond.
    do 2 eexists. reflexivity.
  - rewrite updateRecords_cons.
    unfold updateRecords_body, client_Get_ints, remote_call, bind.
    rewrite Hf, Hz. cbn [negb]. cbv beta iota.
    rewrite Hne, Hone. cbn [negb]. cbv beta iota.
    rewrite Hget. cbn [val remote events]. cbv beta iota. rewrite Hcond.
    do 2 eexists. reflexivity.
Qed.

(** ** The delete loop and the targets *)




(** ** What a whole loop asks of the server *)

Lemma reads_app (a b : list Event) :
  reads (a ++ b) = (reads a ++ reads b)%list.
Proof. unfold reads. now rewrite requests_app, List.filter_app. Qed.

(** A loop that runs its body once per element observes, under any
    observation that distributes over concatenation, what its iterations
    observe, in order. *)
Lemma loop_observe {B} (obs : list Event -> list B)
    (body : Endpoint -> M S unit) (loop : list Endpoint -> M S unit)
    (expected : Endpoint -> list B) :
  obs [] = [] ->
  (forall a b, obs (a ++ b)%list = (obs a ++ obs b)%list) ->
  loop [] = ret tt ->
  (forall e es, loop (e :: es) = bind (body e) (fun _ => loop es)) ->
  (forall e s, obs (events (body e s)) = expected e) ->
  forall es s, obs (events (loop es s)) = flat_map expected es.
Proof.
  intros Hnil Happ Hloop0 Hloop1 Hbody es.
  induction es as [|e es IH]; intros s.
  - now rewrite Hloop0.
  - rewrite Hloop1. unfold bind. cbn [events flat_map].
    now rewrite Happ, Hbody, IH.
Qed.

Lemma loop_failures_logged (body : Endpoint -> M S unit)
    (loop : list Endpoint -> M S unit) :
  loop [] = ret tt ->
  (forall e es, loop (e :: es) = bind (body e) (fun _ => loop es)) ->
  (forall e s, failures_logged (events (body e s)) = true) ->
  forall es s, failures_logged (events (loop es s)) = true.
Proof.
  intros Hloop0 Hloop1 Hbody es.
  induction es as [|e es IH]; intros s.
  - now rewrite Hloop0.
  - rewrite Hloop1. unfold bind. cbn [events].
    rewrite failures_logged_app by apply Hbody. apply IH.
Qed.

Local Arguments Sprintf : simpl never.
Local Arguments lookup_path : simpl never.

(** Split on the tests an iteration makes, in the order it makes them,
    then on what the client answers. *)
Ltac split_tests p m e :=
  unfold in_scope, zone_of, single_target,
    createRecords_body, deleteRecords_body, updateRecords_body;
  destruct (domainFilter p (DNSName e));
  destruct (FindZone m (DNSName e)) as [zoneName zoneID];
  cbn [fst snd negb andb];
  destruct (String.eqb zoneName "");
  destruct (length (Targets e) =? 1)%nat;
  destruct (dryRun p); try discriminate;
  cbn [fst snd negb andb];
  unfold client_Get_ints, client_Post, client_Put, client_Delete,
    remote_call, log_Printf, bind, ret;
  repeat case_match; simplify_eq/=.

Ltac observe_body p m e := split_tests p m e; try reflexivity.

Lemma createRecords_body_attempts p m e (s : S) :
  attempts (events (createRecords_body p m e s))
  = if in_scope p m e && single_target e && negb (dryRun p)
    then [(POST, Sprintf "/domain/zone/%s/record" [AString (zone_of m e)])]
    else [].
Proof. observe_body p m e. Qed.

Lemma deleteRecords_body_attempts p m e (s : S) :
  attempts (events (deleteRecords_body p m e s))
  = if in_scope p m e then [(GET, lookup_path (zone_of m e) e)] else [].
Proof. observe_body p m e. Qed.

Lemma updateRecords_body_attempts p m e (s : S) :
  attempts (events (updateRecords_body p m e s))
  = if in_scope p m e && single_target e
    then [(GET, lookup_path (zone_of m e) e)] else [].
Proof. observe_body p m e. Qed.

Lemma createRecords_body_reads p m e (s : S) :
  reads (events (createRecords_body p m e s)) = [].
Proof. observe_body p m e. Qed.

Lemma deleteRecords_body_reads p m e (s : S) :
  reads (events (deleteRecords_body p m e s))
  = if in_scope p m e then [(GET, lookup_path (zone_of m e) e)] else [].
Proof. observe_body p m e. Qed.

Lemma updateRecords_body_reads p m e (s : S) :
  reads (events (updateRecords_body p m e s))
  = if in_scope p m e && single_target e
    then [(GET, lookup_path (zone_of m e) e)] else [].
Proof. observe_body p m e. Qed.

Lemma createRecords_body_dry p m e (s : S) :
  dryRun p = true -> requests (events (createRecords_body p m e s)) = [].
Proof. intros Hdry. observe_body p m e. Qed.

Lemma deleteRecords_body_dry p m e (s : S) :
  dryRun p = true ->
  requests (events (deleteRecords_body p m e s))
  = if in_scope p m e then [(GET, lookup_path (zone_of m e) e)] else [].
Proof. intros Hdry. observe_body p m e. Qed.

Lemma updateRecords_body_dry p m e (s : S) :
  dryRun p = true ->
  requests (events (updateRecords_body p m e s))
  = if in_scope p m e && single_target e
    then [(GET, lookup_path (zone_of m e) e)] else [].
Proof. intros Hdry. observe_body p m e. Qed.

Lemma reports_refl (err : option error) :
  reports err {| format := "Error was: %s"; operands := [LError err] |} = true.
Proof. unfold reports. simpl. now apply bool_decide_eq_true. Qed.

Ltac logged_body p m e :=
  split_tests p m e;
  repeat match goal with
         | |- context [match ?o with Some _ => _ | None => _ end] =>
             destruct o
         end;
  rewrite ?reports_refl; try reflexivity;
  match goal with
  | H : bool_decide (_ <> _) || _ = false |- _ =>
      apply orb_false_iff in H as [H _];
      apply bool_decide_eq_false in H; exfalso; apply H; discriminate
  end.

Lemma createRecords_body_logged p m e (s : S) :
  failures_logged (events (createRecords_body p m e s)) = true.
Proof. logged_body p m e. Qed.

Lemma deleteRecords_body_logged p m e (s : S) :
  failures_logged (events (deleteRecords_body p m e s)) = true.
Proof. logged_body p m e. Qed.

Lemma updateRecords_body_logged p m e (s : S) :
  failures_logged (events (updateRecords_body p m e s)) = true.
Proof. logged_body p m e. Qed.

(** ** [ApplyChanges] *)

Lemma ApplyChanges_run p changes (s : S) :
  ApplyChanges p changes s
  = let '((zones, err), s1) := Get_strings (client p) "/domain/zone" s in
    let listing := Remote (get_call "/domain/zone" (PStrings zones) err) in
    match err with
    | Some e => {| val := Some e; remote := s1; events := [listing] |}
    | None =>
        let m := fill_mapper zones ∅ in
        let o1 := createRecords p m (Create changes) s1 in
        let o2 := deleteRecords p m (Delete changes) (remote o1) in
        let o3 := updateRecords p m (UpdateNew changes) (remote o2) in
        {| val := None; remote := remote o3;
           events := listing :: events o1 ++ events o2 ++ events o3 |}
    end.
Proof.
  unfold ApplyChanges, getZones, client_Get_strings, remote_call, bind, ret.
  destruct (Get_strings (client p) "/domain/zone" s) as [[zones err] s1].
  destruct err as [e|]; cbn [val remote events range default app];
    [reflexivity|].
  now rewrite !app_nil_r.
Qed.

Lemma flat_map_nothing {A B} (l : list A) :
  flat_map (fun _ => @nil B) l = [].
Proof. induction l; [reflexivity | exact IHl]. Qed.

Lemma createRecords_attempts p m es (s : S) :
  attempts (events (createRecords p m es s)) = create_posts p m es.
Proof.
  apply (loop_observe attempts (createRecords_body p m) (createRecords p m));
    auto using attempts_app, createRecords_body_attempts.
Qed.

Lemma deleteRecords_attempts p m es (s : S) :
  attempts (events (deleteRecords p m es s)) = delete_lookups p m es.
Proof.
  apply (loop_observe attempts (deleteRecords_body p m) (deleteRecords p m));
    auto using attempts_app, deleteRecords_body_attempts.
Qed.

Lemma updateRecords_attempts p m es (s : S) :
  attempts (events (updateRecords p m es s)) = update_lookups p m es.
Proof.
  apply (loop_observe attempts (updateRecords_body p m) (updateRecords p m));
    auto using attempts_app, updateRecords_body_attempts.
Qed.

Lemma createRecords_reads p m es (s : S) :
  reads (events (createRecords p m es s)) = [].
Proof.
  rewrite <- (flat_map_nothing es).
  apply (loop_observe reads (createRecords_body p m) (createRecords p m));
    auto using reads_app, createRecords_body_reads.
Qed.

Lemma deleteRecords_reads p m es (s : S) :
  reads (events (deleteRecords p m es s)) = delete_lookups p m es.
Proof.
  apply (loop_observe reads (deleteRecords_body p m) (deleteRecords p m));
    auto using reads_app, deleteRecords_body_reads.
Qed.

Lemma updateRecords_reads p m es (s : S) :
  reads (events (updateRecords p m es s)) = update_lookups p m es.
Proof.
  apply (loop_observe reads (updateRecords_body p m) (updateRecords p m));
    auto using reads_app, updateRecords_body_reads.
Qed.

Lemma createRecords_dry p m es (s : S) :
  dryRun p = true -> requests (events (createRecords p m es s)) = [].
Proof.
  intros Hdry. rewrite <- (flat_map_nothing es).
  apply (loop_observe requests (createRecords_body p m) (createRecords p m));
    auto using requests_app, createRecords_body_dry.
Qed.

Lemma deleteRecords_dry p m es (s : S) :
  dryRun p = true ->
  requests (events (deleteRecords p m es s)) = delete_lookups p m es.
Proof.
  intros Hdry.
  apply (loop_observe requests (deleteRecords_body p m) (deleteRecords p m));
    auto using requests_app, deleteRecords_body_dry.
Qed.

Lemma updateRecords_dry p m es (s : S) :
  dryRun p = true ->
  requests (events (updateRecords p m es s)) = update_lookups p m es.
Proof.
  intros Hdry.
  apply (loop_observe requests (updateRecords_body p m) (updateRecords p m));
    auto using requests_app, updateRecords_body_dry.
Qed.

Lemma delete_lookups_reads p m es :
  Forall (fun r => r.1 = GET) (delete_lookups p m es).
Proof.
  apply Forall_flat_map, List.Forall_forall. intros e _.
  destruct (in_scope p m e); repeat constructor.
Qed.

Lemma update_lookups_reads p m es :
  Forall (fun r => r.1 = GET) (update_lookups p m es).
Proof.
  apply Forall_flat_map, List.Forall_forall. intros e _.
  destruct (in_scope p m e && single_target e); repeat constructor.
Qed.

Lemma expected_reads_reads p changes (s : S) :
  Forall (fun r => r.1 = GET) (expected_reads p changes s).
Proof.
  unfold expected_reads. constructor; [reflexivity|].
  destruct ((Get_strings (client p) "/domain/zone" s).1.2); [constructor|].
  apply Forall_app.
  split; [apply delete_lookups_reads | apply update_lookups_reads].
Qed.

Lemma ApplyChanges_reads p changes (s : S) :
  reads (events (ApplyChanges p changes s)) = expected_reads p changes s.
Proof.
  rewrite ApplyChanges_run. unfold expected_reads.
  destruct (Get_strings (client p) "/domain/zone" s) as [[zones err] s1].
  destruct err as [e|]; cbn [val remote events fst snd]; [reflexivity|].
  change (reads (?c :: ?l)) with ((GET, "/domain/zone") :: reads l).
  now rewrite !reads_app, createRecords_reads, deleteRecords_reads,
    updateRecords_reads.
Qed.

Lemma ApplyChanges_dry_requests p changes (s : S) :
  dryRun p = true ->
  requests (events (ApplyChanges p changes s)) = expected_reads p changes s.
Proof.
  intros Hdry. rewrite ApplyChanges_run. unfold expected_reads.
  destruct (Get_strings (client p) "/domain/zone" s) as [[zones err] s1].
  destruct err as [e|]; cbn [val remote events fst snd]; [reflexivity|].
  change (requests (?c :: ?l)) with ((GET, "/domain/zone") :: requests l).
  now rewrite !requests_app, createRecords_dry, deleteRecords_dry,
    updateRecords_dry.
Qed.

Lemma ambiguous_by_cases (ids : list Z) (err : option error) :
  bool_decide (err <> None) || negb (length ids =? 1)%nat
  = match err, ids with
    | None, [_] => false
    | _, _ => true
    end.
Proof.
  destruct err as [e|].
  - now rewrite bool_decide_eq_true_2.
  - rewrite bool_decide_eq_false_2 by (intros H; now apply H).
    now destruct ids as [|id [|id' ids]].
Qed.

Lemma createRecords_body_step p m e (s : S) :
  (calls_of (events (createRecords_body p m e s)),
   remote (createRecords_body p m e s))
  = create_step p m e s.
Proof.
  unfold createRecords_body, create_step, in_scope, zone_of, single_target.
  destruct (domainFilter p (DNSName e)); cbn [negb andb]; [|reflexivity].
  destruct (FindZone m (DNSName e)) as [zoneName zoneID]. cbn [fst].
  destruct (String.eqb zoneName ""); cbn [negb andb]; [reflexivity|].
  destruct (length (Targets e) =? 1)%nat; cbn [negb andb]; [|reflexivity].
  unfold client_Post, remote_call, log_Printf, bind, ret.
  cbn [val remote events].
  destruct (dryRun p); cbn [negb]; [reflexivity|].
  fold (record_of_endpoint zoneName (first_target e) e).
  destruct (Post_record (client p) _ _ s) as [[newRecord err] s1].
  cbn [val remote events app]. rewrite calls_of_logged, calls_of_remote.
  destruct err; reflexivity.
Qed.

Lemma deleteRecords_body_step p m e (s : S) :
  (calls_of (events (deleteRecords_body p m e s)),
   remote (deleteRecords_body p m e s))
  = delete_step p m e s.
Proof.
  unfold deleteRecords_body, delete_step, in_scope, zone_of.
  destruct (domainFilter p (DNSName e)); cbn [negb andb]; [|reflexivity].
  destruct (FindZone m (DNSName e)) as [zoneName zoneID]. cbn [fst].
  destruct (String.eqb zoneName ""); cbn [negb andb]; [reflexivity|].
  unfold client_Get_ints, client_Delete, remote_call, log_Printf, bind, ret.
  destruct (Get_ints (client p) (lookup_path zoneName e) s)
    as [[ids err] s1].
  cbn [val remote events]. rewrite ambiguous_by_cases.
  destruct err as [e'|]; [reflexivity|].
  destruct ids as [|id [|id' ids]]; try reflexivity.
  cbn [val remote events app]. rewrite calls_of_remote, calls_of_logged.
  destruct (dryRun p); [reflexivity|].
  change (first_id [id]) with id. cbn [val remote events].
  destruct (Delete_path (client p) _ s1) as [derr s2].
  cbn [val remote events app]. rewrite calls_of_remote.
  destruct derr; reflexivity.
Qed.

Lemma updateRecords_body_step p m e (s : S) :
  (calls_of (events (updateRecords_body p m e s)),
   remote (updateRecords_body p m e s))
  = update_step p m e s.
Proof.
  unfold updateRecords_body, update_step, in_scope, zone_of, single_target.
  destruct (domainFilter p (DNSName e)); cbn [negb andb]; [|reflexivity].
  destruct (FindZone m (DNSName e)) as [zoneName zoneID]. cbn [fst].
  destruct (String.eqb zoneName ""); cbn [negb andb]; [reflexivity|].
  destruct (length (Targets e) =? 1)%nat; cbn [negb andb]; [|reflexivity].
  unfold client_Get_ints, client_Put, remote_call, log_Printf, bind, ret.
  destruct (Get_ints (client p) (lookup_path zoneName e) s)
    as [[ids err] s1].
  cbn [val remote events]. rewrite ambiguous_by_cases.
  destruct err as [e'|]; [reflexivity|].
  destruct ids as [|id [|id' ids]]; try reflexivity.
  cbn [val remote events app]. rewrite calls_of_remote, calls_of_logged.
  destruct (dryRun p); [reflexivity|].
  change (first_id [id]) with id. cbn [val remote events].
  fold (record_of_endpoint zoneName (first_target e) e).
  destruct (Put_record (client p) _ _ s1) as [perr s2].
  cbn [val remote events app]. rewrite calls_of_remote.
  destruct perr; reflexivity.
Qed.

(** A loop whose iterations take the steps of the spec takes them all. *)
Lemma loop_steps (step : Endpoint -> S -> list Call * S)
    (body : Endpoint -> M S unit) (loop : list Endpoint -> M S unit) :
  loop [] = ret tt ->
  (forall e es, loop (e :: es) = bind (body e) (fun _ => loop es)) ->
  (forall e s,
      (calls_of (events (body e s)), remote (body e s)) = step e s) ->
  forall es s,
    (calls_of (events (loop es s)), remote (loop es s)) = steps step es s.
Proof.
  intros Hloop0 Hloop1 Hbody es.
  induction es as [|e es IH]; intros s.
  - now rewrite Hloop0.
  - rewrite Hloop1. unfold bind. cbn [val remote events steps].
    rewrite calls_of_app, <- Hbody, <- IH. reflexivity.
Qed.

Lemma ApplyChanges_calls p changes (s : S) :
  calls_of (events (ApplyChanges p changes s)) = expected_calls p changes s.
Proof.
  rewrite ApplyChanges_run. unfold expected_calls.
  destruct (Get_strings (client p) "/domain/zone" s) as [[zones err] s1].
  destruct err as [e|]; cbn [events]; [reflexivity|].
  rewrite calls_of_remote, !calls_of_app. cbv zeta.
  set (m := fill_mapper zones ∅).
  rewrite <- (loop_steps (create_step p m) (createRecords_body p m)
                (createRecords p m) eq_refl (fun _ _ => eq_refl)
                (createRecords_body_step p m) (Create changes) s1).
  rewrite <- (loop_steps (delete_step p m) (deleteRecords_body p m)
                (deleteRecords p m) eq_refl (fun _ _ => eq_refl)
                (deleteRecords_body_step p m) (Delete changes)).
  rewrite <- (loop_steps (update_step p m) (updateRecords_body p m)
                (updateRecords p m) eq_refl (fun _ _ => eq_refl)
                (updateRecords_body_step p m) (UpdateNew changes)).
  reflexivity.
Qed.

(** C2: [ApplyChanges] returns exactly the error of the zone listing,
    [nil] when the listing succeeds, whatever the calls of the write path
    return.  When the listing succeeds, every endpoint that passes the
    checks gets its first call (the [POST] of a create, the lookup of a
    delete or an update) in the order create, delete, update, whatever the
    earlier calls returned; and every failed call is followed by its log
    lines.  The calls of the run, mutations included, are those of the
    spec: every endpoint of every list takes its whole step ([POST];
    lookup then [DELETE]; lookup then [PUT]) from the state the call
    before it left, whether that call failed or not. *)
Theorem ApplyChanges_absorbs_failures p changes (s : S) :
  let listing := (Get_strings (client p) "/domain/zone" s).1 in
  val (ApplyChanges p changes s) = listing.2
  /\ (listing.2 = None ->
      let m := fill_mapper listing.1 ∅ in
      attempts (events (ApplyChanges p changes s))
      = ((GET, "/domain/zone")
         :: create_posts p m (Create changes)
         ++ delete_lookups p m (Delete changes)
         ++ update_lookups p m (UpdateNew changes))%list
      /\ failures_logged (events (ApplyChanges p changes s)) = true)
  /\ calls_of (events (ApplyChanges p changes s))
     = expected_calls p changes s.
Proof.
  cbv zeta. split; [|split; [|apply ApplyChanges_calls]];
    rewrite ApplyChanges_run;
    destruct (Get_strings (client p) "/domain/zone" s) as [[zones err] s1];
    cbn [fst snd]; destruct err as [e|]; cbn [val remote events];
    try reflexivity; try discriminate.
  intros _. split.
    + change (attempts (?c :: ?l)) with ((GET, "/domain/zone") :: attempts l).
      now rewrite !attempts_app, createRecords_attempts,
        deleteRecords_attempts, updateRecords_attempts.
    + cbn [failures_logged failure get_call andb].
      rewrite !failures_logged_app.
      * apply (loop_failures_logged
                 (updateRecords_body p (fill_mapper zones ∅))
                 (updateRecords p (fill_mapper zones ∅)));
          auto using updateRecords_body_logged.
      * apply (loop_failures_logged
                 (deleteRecords_body p (fill_mapper zones ∅))
                 (deleteRecords p (fill_mapper zones ∅)));
          auto using deleteRecords_body_logged.
      * apply (loop_failures_logged
                 (createRecords_body p (fill_mapper zones ∅))
                 (createRecords p (fill_mapper zones ∅)));
          auto using createRecords_body_logged.
Qed.

(** C4: in a dry run every remote call of [ApplyChanges] is a [GET]; the
    calls are the zone listing and, when it succeeds, one lookup for each
    endpoint of the delete list and of the update list that passes the
    checks; and these are exactly the [GET]s the run without dry run
    makes from the same server state. *)
Theorem dry_run_only_reads p changes (s : S) :
  dryRun p = true ->
  Forall (fun c => method c = GET)
    (calls_of (events (ApplyChanges p changes s)))
  /\ requests (events (ApplyChanges p changes s))
     = expected_reads p changes s
  /\ reads (events (ApplyChanges (with_dryRun false p) changes s))
     = requests (events (ApplyChanges p changes s)).
Proof.
  intros Hdry.
  pose proof (ApplyChanges_dry_requests p changes s Hdry) as Hreq.
  split; [|split].
  - apply (List.Forall_map (fun c => (method c, path c))
             (fun r => r.1 = GET)).
    fold (requests (events (ApplyChanges p changes s))).
    rewrite Hreq. apply expected_reads_reads.
  - exact Hreq.
  - rewrite Hreq. apply (ApplyChanges_reads (with_dryRun false p)).
Qed.

(** ** [Records] *)

Lemma Records_ids_cons p zone recordID recordIDs endpoints (s : S) :
  Records_ids p zone (recordID :: recordIDs) endpoints s
  = let url :=
      Sprintf "/domain/zone/%s/record/%d" [AString zone; AInt recordID] in
    let '((record, err), s') := Get_record (client p) url s in
    match err with
    | Some e =>
        {| val := inl e; remote := s';
           events := [Remote (get_call url (PRecord record) err)] |}
    | None =>
        after [Remote (get_call url (PRecord record) None)]
          (Records_ids p zone recordIDs
             (if supportedRecordType (FieldType record)
              then endpoints
                   ++ [NewEndpointWithTTL
                         (formatOVHDNSName (SubDomain record) zone)
                         (FieldType record) (TTL_of_int (TTL record))
                         [Target record]]
              else endpoints) s')
    end.
Proof.
  cbn [Records_ids]. unfold client_Get_record, remote_call, bind, ret, after.
  destruct (Get_record (client p) _ s) as [[record err] s'].
  cbn [val remote events].
  destruct err as [e|]; [reflexivity|].
  destruct (supportedRecordType (FieldType record)); reflexivity.
Qed.

Lemma Records_zones_cons p zone zones endpoints (s : S) :
  Records_zones p (zone :: zones) endpoints s
  = if domainFilter p zone then
      let url := Sprintf "/domain/zone/%s/record" [AString zone] in
      let '((recordIDs, err), s') := Get_ints (client p) url s in
      match err with
      | Some e =>
          {| val := inl e; remote := s';
             events := [Remote (get_call url (PInts recordIDs) err)] |}
      | None =>
          let o := Records_ids p zone recordIDs endpoints s' in
          after [Remote (get_call url (PInts recordIDs) None)]
            match val o with
            | inl e =>
                {| val := inl e; remote := remote o; events := events o |}
            | inr endpoints' =>
                after (events o) (Records_zones p zones endpoints' (remote o))
            end
      end
    else Records_zones p zones endpoints s.
Proof.
  cbn [Records_zones]. destruct (domainFilter p zone); [|reflexivity].
  unfold client_Get_ints, remote_call, bind, ret, after.
  destruct (Get_ints (client p) _ s) as [[recordIDs err] s'].
  cbn [val remote events].
  destruct err as [e|]; [reflexivity|]. cbn [val remote events].
  destruct (val (Records_ids p zone recordIDs endpoints s')) as [e|eps];
    cbn [val remote events]; [now rewrite app_nil_r | reflexivity].
Qed.

Lemma NewEndpointWithTTL_of_record zone (r : OvhDomainZoneRecord) :
  NewEndpointWithTTL (formatOVHDNSName (SubDomain r) zone) (FieldType r)
    (TTL_of_int (TTL r)) [Target r]
  = endpoint_of_record zone r.
Proof.
  unfold NewEndpointWithTTL, endpoint_of_record, formatOVHDNSName, TTL_of_int.
  destruct (String.eqb (SubDomain r) ""); [reflexivity|].
  now rewrite Sprintf_dot.
Qed.

(** A run of the inner loop that ends normally fetched one record per id,
    without error, and appended the endpoints of the supported ones. *)
Lemma Records_ids_ok p zone recordIDs :
  forall endpoints (s : S) eps,
    val (Records_ids p zone recordIDs endpoints s) = inr eps ->
    exists recs,
      map fst recs = recordIDs
      /\ events (Records_ids p zone recordIDs endpoints s)
         = fetch_events zone recs
      /\ eps = (endpoints ++ endpoints_of_records zone recs)%list.
Proof.
  induction recordIDs as [|recordID recordIDs IH]; intros endpoints s eps.
  - cbn. intros [= <-]. exists []. now rewrite app_nil_r.
  - rewrite Records_ids_cons. cbv zeta.
    destruct (Get_record (client p) _ s) as [[record err] s'].
    destruct err as [e|]; [discriminate|].
    unfold after. cbn [val remote events]. intros Hval.
    destruct (IH _ _ _ Hval) as (recs & Hids & Hev & Heps).
    exists ((recordID, record) :: recs). split; [|split].
    + cbn. now rewrite Hids.
    + rewrite Hev. reflexivity.
    + rewrite Heps. unfold endpoints_of_records. cbn [flat_map fst snd].
      destruct (supportedRecordType (FieldType record)); [|reflexivity].
      now rewrite NewEndpointWithTTL_of_record, <- app_assoc.
Qed.

Lemma Records_zones_ok p zones :
  forall endpoints (s : S) eps,
    val (Records_zones p zones endpoints s) = inr eps ->
    exists fetched,
      map fst fetched = List.filter (domainFilter p) zones
      /\ events (Records_zones p zones endpoints s)
         = flat_map zone_events fetched
      /\ eps = (endpoints
                ++ flat_map (fun zr => endpoints_of_records zr.1 zr.2)
                     fetched)%list.
Proof.
  induction zones as [|zone zones IH]; intros endpoints s eps.
  - cbn. intros [= <-]. exists []. now rewrite app_nil_r.
  - rewrite Records_zones_cons. cbn [List.filter].
    destruct (domainFilter p zone).
    + cbv zeta. destruct (Get_ints (client p) _ s) as [[recordIDs err] s'].
      destruct err as [e|]; [discriminate|].
      pose proof (Records_ids_ok p zone recordIDs endpoints s') as Hids.
      destruct (val (Records_ids p zone recordIDs endpoints s'))
        as [e|endpoints'] eqn:Hinner; [discriminate|].
      destruct (Hids _ eq_refl) as (recs & Hmap & Hev & Hacc).
      unfold after. cbn [val remote events]. intros Hval.
      destruct (IH _ _ _ Hval) as (fetched & Hz & Hev' & Heps).
      exists ((zone, recs) :: fetched). split; [|split].
      * cbn. now rewrite Hz.
      * cbn [flat_map]. unfold zone_events at 1. cbn [fst snd].
        now rewrite Hmap, Hev, Hev'.
      * rewrite Heps, Hacc. cbn [flat_map fst snd]. now rewrite <- app_assoc.
    + intros Hval. exact (IH _ _ _ Hval).
Qed.

Lemma Records_run p (s : S) :
  Records p s
  = let '((zones, err), s1) := Get_strings (client p) "/domain/zone" s in
    let listing := Remote (get_call "/domain/zone" (PStrings zones) err) in
    match err with
    | Some e => {| val := (None, Some e); remote := s1; events := [listing] |}
    | None =>
        let o := Records_zones p zones [] s1 in
        {| val := match val o with
                  | inl e => (None, Some e)
                  | inr endpoints => (Some endpoints, None)
                  end;
           remote := remote o;
           events := listing :: events o |}
    end.
Proof.
  unfold Records, getZones, client_Get_strings, remote_call, bind, ret.
  destruct (Get_strings (client p) "/domain/zone" s) as [[zones err] s1].
  destruct err as [e|]; cbn [val remote events app]; [reflexivity|].
  change (range (Some zones)) with zones.
  destruct (val (Records_zones p zones [] s1)) as [e|eps];
    cbn [val remote events]; rewrite ?app_nil_r; reflexivity.
Qed.

(** C1: a successful run of [Records] lists the zones, then reads each
    zone the domain filter matches, in order: its record ids, then one
    record per id.  The endpoints returned are, in that order, one for
    each fetched record whose field type is in the allow-list and none for
    the others; the endpoint of a record has the name [subDomain.zone]
    (the zone when the sub-domain is empty), the record's field type, its
    TTL, and its target as only target. *)
Theorem Records_endpoints p (s : S) eps :
  val (Records p s) = (Some eps, None) ->
  exists zones (fetched : list (string * list (Z * OvhDomainZoneRecord))),
    events (Records p s)
    = Remote (get_call "/domain/zone" (PStrings zones) None)
      :: flat_map zone_events fetched
    /\ map fst fetched = List.filter (domainFilter p) zones
    /\ eps
       = flat_map
           (fun zr =>
              flat_map
                (fun ir =>
                   if supportedRecordType (FieldType ir.2)
                   then [endpoint_of_record zr.1 ir.2] else [])
                zr.2)
           fetched.
Proof.
  rewrite Records_run.
  destruct (Get_strings (client p) "/domain/zone" s) as [[zones err] s1].
  destruct err as [e|]; [discriminate|]. cbn [val remote events].
  destruct (val (Records_zones p zones [] s1)) as [e|eps'] eqn:Hz;
    [discriminate|].
  intros [= <-].
  destruct (Records_zones_ok p zones _ _ _ Hz) as (fetched & Hm & Hev & He).
  exists zones, fetched. now rewrite Hev.
Qed.

Lemma Records_ids_failfast p zone recordIDs :
  forall endpoints (s : S) c e,
    In c (calls_of (events (Records_ids p zone recordIDs endpoints s))) ->
    failure c = Some e ->
    val (Records_ids p zone recordIDs endpoints s) = inl e.
Proof.
  induction recordIDs as [|recordID recordIDs IH]; intros endpoints s c e.
  - cbn. contradiction.
  - rewrite Records_ids_cons. cbv zeta.
    destruct (Get_record (client p) _ s) as [[record err] s'].
    destruct err as [e'|]; unfold after; cbn [val remote events].
    + intros [<-|[]]. cbn. congruence.
    + intros [<-|Hin]; [cbn; discriminate|]. now apply IH.
Qed.

Lemma Records_zones_failfast p zones :
  forall endpoints (s : S) c e,
    In c (calls_of (events (Records_zones p zones endpoints s))) ->
    failure c = Some e ->
    val (Records_zones p zones endpoints s) = inl e.
Proof.
  induction zones as [|zone zones IH]; intros endpoints s c e.
  - cbn. contradiction.
  - rewrite Records_zones_cons.
    destruct (domainFilter p zone); [|exact (IH endpoints s c e)].
    cbv zeta. destruct (Get_ints (client p) _ s) as [[recordIDs err] s'].
    destruct err as [e'|]; unfold after; cbn [val remote events].
    + intros [<-|[]]. cbn. congruence.
    + pose proof (Records_ids_failfast p zone recordIDs endpoints s' c e)
        as Hids.
      destruct (val (Records_ids p zone recordIDs endpoints s'))
        as [e'|endpoints'] eqn:Hinner; cbn [val remote events].
      * intros [<-|Hin]; [cbn; discriminate|]. intros Hf.
        exact (Hids Hin Hf).
      * intros [<-|Hin]; [cbn; discriminate|]. intros Hf.
        change (In c (calls_of
                        (events (Records_ids p zone recordIDs endpoints s')
                         ++ events
                              (Records_zones p zones endpoints'
                                 (remote (Records_ids p zone recordIDs
                                            endpoints s')))))) in Hin.
        rewrite calls_of_app in Hin.
        apply in_app_or in Hin as [Hin|Hin]; [|exact (IH _ _ c e Hin Hf)].
        discriminate (Hids Hin Hf).
Qed.

(** C3: [Records] is fail-fast.  If any remote call it makes (the zone
    listing, a record-id listing or a record fetch) returns an error,
    [Records] returns that error and a [nil] list. *)
Theorem Records_fail_fast p (s : S) c e :
  In c (calls_of (events (Records p s))) ->
  failure c = Some e ->
  val (Records p s) = (None, Some e).
Proof.
  rewrite Records_run.
  destruct (Get_strings (client p) "/domain/zone" s) as [[zones err] s1].
  destruct err as [e'|]; cbn [val remote events].
  - intros [<-|[]]. cbn. congruence.
  - change (calls_of (Remote ?x :: ?l)) with (x :: calls_of l).
    intros [<-|Hin]; [cbn; discriminate|]. intros Hf.
    now rewrite (Records_zones_failfast p zones _ _ _ _ Hin Hf).
Qed.

(** ** More on [Records] *)

Lemma Records_ids_reads p zone recordIDs :
  forall endpoints (s : S),
    Forall is_read (events (Records_ids p zone recordIDs endpoints s)).
Proof.
  induction recordIDs as [|recordID recordIDs IH]; intros endpoints s.
  - constructor.
  - rewrite Records_ids_cons. cbv zeta.
    destruct (Get_record (client p) _ s) as [[record err] s'].
    destruct err as [e|]; unfold after; cbn [events app].
    + constructor; [reflexivity | constructor].
    + constructor; [reflexivity | apply IH].
Qed.

Lemma Records_zones_reads p zones :
  forall endpoints (s : S),
    Forall is_read (events (Records_zones p zones endpoints s)).
Proof.
  induction zones as [|zone zones IH]; intros endpoints s.
  - constructor.
  - rewrite Records_zones_cons.
    destruct (domainFilter p zone); [|apply IH].
    cbv zeta. destruct (Get_ints (client p) _ s) as [[recordIDs err] s'].
    destruct err as [e|]; unfold after; cbn [events app].
    + constructor; [reflexivity | constructor].
    + pose proof (Records_ids_reads p zone recordIDs endpoints s') as Hids.
      destruct (val (Records_ids p zone recordIDs endpoints s'));
        cbn [events]; (constructor; [reflexivity|]);
        [exact Hids | apply Forall_app; split; [exact Hids | apply IH]].
Qed.

(** X1: [Records] only reads.  Every event of a run is a [GET]: no
    [POST], [PUT] or [DELETE] is issued and nothing is logged, whatever
    the server answers. *)
Theorem Records_read_only p (s : S) :
  Forall is_read (events (Records p s)).
Proof.
  rewrite Records_run.
  destruct (Get_strings (client p) "/domain/zone" s) as [[zones err] s1].
  destruct err as [e|]; cbn [events].
  - constructor; [reflexivity | constructor].
  - constructor; [reflexivity | apply Records_zones_reads].
Qed.

Lemma stopped_at_app pre evs err :
  Forall succeeded (calls_of pre) ->
  stopped_at err evs -> stopped_at err (pre ++ evs).
Proof.
  intros Hpre. destruct err as [e|]; cbn [stopped_at].
  - intros (pre' & c & -> & Hf & Hok).
    exists (pre ++ pre')%list, c. rewrite app_assoc.
    split; [reflexivity|]. split; [exact Hf|].
    rewrite calls_of_app. apply Forall_app. now split.
  - intros Hok. rewrite calls_of_app. apply Forall_app. now split.
Qed.

Lemma stopped_at_failed c e :
  failure c = Some e -> stopped_at (Some e) [Remote c].
Proof.
  intros Hf. exists [], c. split; [reflexivity|]. split; [exact Hf|].
  constructor.
Qed.

Lemma succeeded_get url answer :
  Forall succeeded (calls_of [Remote (get_call url answer None)]).
Proof. constructor; [reflexivity | constructor]. Qed.

Lemma Records_ids_stops p zone recordIDs :
  forall endpoints (s : S),
    stopped_at (error_of (val (Records_ids p zone recordIDs endpoints s)))
      (events (Records_ids p zone recordIDs endpoints s)).
Proof.
  induction recordIDs as [|recordID recordIDs IH]; intros endpoints s.
  - constructor.
  - rewrite Records_ids_cons. cbv zeta.
    destruct (Get_record (client p) _ s) as [[record err] s'].
    destruct err as [e|]; unfold after; cbn [val events error_of].
    + now apply stopped_at_failed.
    + apply stopped_at_app; [apply succeeded_get | apply IH].
Qed.

Lemma Records_zones_stops p zones :
  forall endpoints (s : S),
    stopped_at (error_of (val (Records_zones p zones endpoints s)))
      (events (Records_zones p zones endpoints s)).
Proof.
  induction zones as [|zone zones IH]; intros endpoints s.
  - constructor.
  - rewrite Records_zones_cons.
    destruct (domainFilter p zone); [|apply IH].
    cbv zeta. destruct (Get_ints (client p) _ s) as [[recordIDs err] s'].
    destruct err as [e|]; unfold after; cbn [val events error_of].
    + now apply stopped_at_failed.
    + pose proof (Records_ids_stops p zone recordIDs endpoints s') as Hids.
      destruct (val (Records_ids p zone recordIDs endpoints s'));
        cbn [val events error_of] in *;
        (apply stopped_at_app; [apply succeeded_get|]);
        [exact Hids | apply stopped_at_app; [exact Hids | apply IH]].
Qed.

(** X2: [Records] stops at the first call that fails.  When it returns an
    error, the last thing it did is a call that failed with that error,
    and every call before succeeded; when it returns no error, every call
    succeeded.  The list is [nil] exactly when the error is not. *)
Theorem Records_stops_at_first_error p (s : S) :
  stopped_at (val (Records p s)).2 (events (Records p s))
  /\ ((val (Records p s)).1 = None <-> (val (Records p s)).2 <> None).
Proof.
  rewrite Records_run.
  destruct (Get_strings (client p) "/domain/zone" s) as [[zones err] s1].
  destruct err as [e|]; cbn [val events fst snd].
  - split; [now apply stopped_at_failed | now split].
  - pose proof (Records_zones_stops p zones [] s1) as Hz.
    destruct (val (Records_zones p zones [] s1)) as [e|eps];
      cbn [val events fst snd error_of] in *.
    + split; [|now split].
      apply (stopped_at_app [Remote _]); [apply succeeded_get | exact Hz].
    + split; [|split; [discriminate | intros H; now elim H]].
      apply (stopped_at_app [Remote _] _ None);
        [apply succeeded_get | exact Hz].
Qed.

Lemma Records_zones_unmatched p zones :
  Forall (fun z => domainFilter p z = false) zones ->
  forall endpoints (s : S),
    Records_zones p zones endpoints s = ret (inr endpoints) s.
Proof.
  induction 1 as [|zone zones Hz _ IH]; intros endpoints s; [reflexivity|].
  rewrite Records_zones_cons, Hz. apply IH.
Qed.

(** X3: when the listing succeeds and the domain filter matches none of
    the zones (or there is none), [Records] makes no further call and
    returns the empty list, not [nil], and no error. *)
Theorem Records_no_matching_zone p (s : S) zones s1 :
  Get_strings (client p) "/domain/zone" s = ((zones, None), s1) ->
  Forall (fun z => domainFilter p z = false) zones ->
  Records p s
  = {| val := (Some [], None); remote := s1;
       events := [Remote (get_call "/domain/zone" (PStrings zones) None)] |}.
Proof.
  intros Hget Hnone. rewrite Records_run, Hget.
  now rewrite (Records_zones_unmatched p zones Hnone).
Qed.

Lemma formatted_in_zone zone (r : OvhDomainZoneRecord) :
  in_zone (DNSName (endpoint_of_record zone r)) zone.
Proof.
  unfold in_zone, endpoint_of_record. cbn [DNSName].
  destruct (String.eqb (SubDomain r) ""); [now left | right].
  apply HasSuffix_app.
Qed.

(** X4: every endpoint a successful [Records] returns has a record type
    of the allow-list, exactly one target, and a name that lies in a zone
    the listing returned and the domain filter matches. *)
Theorem Records_endpoints_well_formed p (s : S) eps :
  val (Records p s) = (Some eps, None) ->
  Forall
    (fun ep =>
       supportedRecordType (RecordType ep) = true
       /\ length (Targets ep) = 1%nat
       /\ exists zone,
           In zone (Get_strings (client p) "/domain/zone" s).1.1
           /\ domainFilter p zone = true
           /\ in_zone (DNSName ep) zone)
    eps.
Proof.
  rewrite Records_run.
  destruct (Get_strings (client p) "/domain/zone" s) as [[zones err] s1].
  destruct err as [e|]; [discriminate|]. cbn [val remote events fst snd].
  destruct (val (Records_zones p zones [] s1)) as [e|eps'] eqn:Hz;
    [discriminate|].
  intros [= <-].
  destruct (Records_zones_ok p zones _ _ _ Hz) as (fetched & Hm & _ & ->).
  cbn [app]. apply Forall_flat_map, List.Forall_forall. intros [zone recs] Hin.
  assert (Hzone : In zone zones /\ domainFilter p zone = true).
  { apply List.filter_In. rewrite <- Hm.
    exact (List.in_map fst fetched (zone, recs) Hin). }
  unfold endpoints_of_records. cbn [fst snd].
  apply Forall_flat_map, List.Forall_forall. intros [id r] _. cbn [fst snd].
  destruct (supportedRecordType (FieldType r)) eqn:Hsup; constructor;
    [|constructor].
  split; [exact Hsup|]. split; [reflexivity|].
  exists zone. split; [apply Hzone|]. split; [apply Hzone|].
  apply formatted_in_zone.
Qed.

(** ** More on the three loops *)

(** X5: an endpoint whose name [FindZone] files under no zone (it returns
    the empty string) costs one log line in each of the three loops: no
    remote call is made for it and the loop goes on with the next
    endpoint. *)
Theorem unowned_endpoint_no_call p m e rest (s : S) :
  (FindZone m (DNSName e)).1 = "" ->
  (exists l, createRecords p m (e :: rest) s
             = after [Logged l] (createRecords p m rest s))
  /\ (exists l, deleteRecords p m (e :: rest) s
                = after [Logged l] (deleteRecords p m rest s))
  /\ (exists l, updateRecords p m (e :: rest) s
                = after [Logged l] (updateRecords p m rest s)).
Proof.
  intros Hz.
  rewrite createRecords_cons, deleteRecords_cons, updateRecords_cons.
  unfold createRecords_body, deleteRecords_body, updateRecords_body.
  destruct (FindZone m (DNSName e)) as [zoneName zoneID].
  cbn [fst] in Hz. subst zoneName.
  destruct (domainFilter p (DNSName e)); cbn [negb String.eqb];
    cbv beta iota; unfold log_Printf; cbn [val remote events];
    repeat split; eexists; reflexivity.
Qed.

(** X6: for an endpoint that passes the domain filter, has a zone and
    exactly one target, the create loop outside dry run logs, then makes
    one [POST] to the zone's record path whose body carries that target,
    the endpoint's TTL and type and the sub-domain of its name, with no
    id and no zone; whether the [POST] fails or not, only log lines
    follow and the loop goes on from the state the [POST] left. *)
Theorem createRecords_posts_record
    p m e rest (s : S) zoneName zoneID target newRecord err s' :
  domainFilter p (DNSName e) = true ->
  FindZone m (DNSName e) = (zoneName, zoneID) ->
  zoneName <> "" ->
  Targets e = [target] ->
  dryRun p = false ->
  Post_record (client p)
    (Sprintf "/domain/zone/%s/record" [AString zoneName])
    (record_of_endpoint zoneName target e) s
  = ((newRecord, err), s') ->
  exists l logs,
    createRecords p m (e :: rest) s
    = after
        ([Logged l;
          Remote
            (post_call (Sprintf "/domain/zone/%s/record" [AString zoneName])
               (record_of_endpoint zoneName target e) newRecord err)]
         ++ map Logged logs)
        (createRecords p m rest s').
Proof.
  intros Hf Hz Hne Ht Hdry Hpost. apply String.eqb_neq in Hne.
  rewrite createRecords_cons.
  unfold createRecords_body, client_Post, remote_call, bind, first_target.
  rewrite Hf, Hz. cbn [negb]. cbv beta iota.
  rewrite Hne, Ht. cbn [negb length Nat.eqb]. cbv beta iota.
  rewrite Hdry. unfold log_Printf, ret. cbn [val remote events].
  change (default "" ([target] !! 0%nat)) with target.
  fold (record_of_endpoint zoneName target e).
  rewrite Hpost. unfold after. cbn [val remote events].
  destruct err as [e'|]; cbn [val remote events].
  - eexists _, [_; _]. reflexivity.
  - eexists _, []. reflexivity.
Qed.

(** X8: for an endpoint that passes the domain filter, has a zone and
    exactly one target, when the lookup returns one id, the update loop
    outside dry run makes the lookup, logs, and makes one [PUT] to the
    path of that id with the endpoint's target, TTL, type and sub-domain
    as body. *)
Theorem updateRecords_puts_record
    p m e rest (s : S) zoneName zoneID target id s' perr s'' :
  domainFilter p (DNSName e) = true ->
  FindZone m (DNSName e) = (zoneName, zoneID) ->
  zoneName <> "" ->
  Targets e = [target] ->
  Get_ints (client p) (lookup_path zoneName e) s = (([id], None), s') ->
  dryRun p = false ->
  Put_record (client p)
    (Sprintf "/domain/zone/%s/record/%d" [AString zoneName; AInt id])
    (record_of_endpoint zoneName target e) s'
  = (perr, s'') ->
  exists l logs,
    updateRecords p m (e :: rest) s
    = after
        ([Remote (get_call (lookup_path zoneName e) (PInts [id]) None);
          Logged l;
          Remote
            (put_call
               (Sprintf "/domain/zone/%s/record/%d"
                  [AString zoneName; AInt id])
               (record_of_endpoint zoneName target e) perr)]
         ++ map Logged logs)
        (updateRecords p m rest s'').
Proof.
  intros Hf Hz Hne Ht Hget Hdry Hput. apply String.eqb_neq in Hne.
  rewrite updateRecords_cons.
  unfold updateRecords_body, client_Get_ints, client_Put, remote_call, bind,
    first_target.
  rewrite Hf, Hz. cbn [negb]. cbv beta iota.
  rewrite Hne, Ht. cbn [negb length Nat.eqb]. cbv beta iota.
  rewrite Hget. cbn [val remote events]. cbv beta iota.
  change (bool_decide (@None error <> None) || negb (length [id] =? 1)%nat)
    with false. cbv iota.
  rewrite Hdry. change (first_id [id]) with id.
  change (default "" ([target] !! 0%nat)) with target.
  fold (record_of_endpoint zoneName target e).
  unfold log_Printf, ret. cbn [val remote events]. rewrite Hput.
  unfold after. cbn [val remote events].
  destruct perr as [e'|]; cbn [val remote events].
  - eexists _, [_; _]. reflexivity.
  - eexists _, []. reflexivity.
Qed.

Lemma createRecords_body_requests p m e (s : S) :
  requests (events (createRecords_body p m e s))
  = if in_scope p m e && single_target e && negb (dryRun p)
    then [(POST, Sprintf "/domain/zone/%s/record" [AString (zone_of m e)])]
    else [].
Proof. observe_body p m e. Qed.

(** X7: the calls of the create loop are fixed by the list alone: one
    [POST] to the zone's record path for each endpoint that passes the
    three checks, in order, and nothing outside dry run is retried or
    looked up, whatever the server answers. *)
Theorem createRecords_requests p m es (s : S) :
  requests (events (createRecords p m es s)) = create_posts p m es.
Proof.
  apply (loop_observe requests (createRecords_body p m) (createRecords p m));
    auto using requests_app, createRecords_body_requests.
Qed.

Lemma ids_looked_up_app a b :
  (forall prev, ids_looked_up prev a) ->
  (forall prev, ids_looked_up prev b) ->
  forall prev, ids_looked_up prev (a ++ b).
Proof.
  intros Ha Hb prev. specialize (Ha prev). revert prev Ha.
  induction a as [|c a IH]; intros prev Ha; [apply Hb|].
  destruct Ha as [Hc Ha]. split; [exact Hc | now apply IH].
Qed.

Lemma loop_ids_looked_up (body : Endpoint -> M S unit)
    (loop : list Endpoint -> M S unit) :
  loop [] = ret tt ->
  (forall e es, loop (e :: es) = bind (body e) (fun _ => loop es)) ->
  (forall e s prev, ids_looked_up prev (calls_of (events (body e s)))) ->
  forall es s prev, ids_looked_up prev (calls_of (events (loop es s))).
Proof.
  intros Hloop0 Hloop1 Hbody es.
  induction es as [|e es IH]; intros s prev.
  - rewrite Hloop0. exact I.
  - rewrite Hloop1. unfold bind. cbn [events]. rewrite calls_of_app.
    apply ids_looked_up_app; [apply Hbody | apply IH].
Qed.

Lemma unique_id (ids : list Z) (err : option error) :
  bool_decide (err <> None) || negb (length ids =? 1)%nat = false ->
  err = None /\ ids = [first_id ids].
Proof.
  intros H. apply orb_false_iff in H as [He Hl].
  apply bool_decide_eq_false in He. apply negb_false_iff, Nat.eqb_eq in Hl.
  split.
  - destruct err; [exfalso; apply He; discriminate | reflexivity].
  - destruct ids as [|id [|id' ids]]; try discriminate. reflexivity.
Qed.

Lemma createRecords_body_ids p m e (s : S) prev :
  ids_looked_up prev (calls_of (events (createRecords_body p m e s))).
Proof.
  unfold createRecords_body.
  destruct (domainFilter p (DNSName e)); cbn [negb]; [|exact I].
  destruct (FindZone m (DNSName e)) as [zoneName zoneID].
  destruct (String.eqb zoneName ""); cbn [negb]; [exact I|].
  destruct (length (Targets e) =? 1)%nat; cbn [negb]; [|exact I].
  unfold client_Post, remote_call, log_Printf, bind, ret.
  cbn [val remote events].
  destruct (dryRun p); [exact I|].
  destruct (Post_record (client p) _ _ s) as [[newRecord err] s'].
  cbn [val remote events app].
  rewrite calls_of_logged, calls_of_remote.
  split; [exact I|]. destruct err; exact I.
Qed.

Lemma lookup_justifies zoneName e id mth req prev :
  justifies (Some (get_call (lookup_path zoneName e) (PInts [id]) None))
    {| method := mth;
       path := Sprintf "/domain/zone/%s/record/%d" [AString zoneName; AInt id];
       body := req; response := PNothing; failure := prev |}.
Proof.
  unfold justifies. cbn [method].
  destruct mth; try exact I;
    exists (get_call (lookup_path zoneName e) (PInts [id]) None),
      zoneName, e, id; repeat split.
Qed.

Lemma deleteRecords_body_ids p m e (s : S) prev :
  ids_looked_up prev (calls_of (events (deleteRecords_body p m e s))).
Proof.
  unfold deleteRecords_body.
  destruct (domainFilter p (DNSName e)); cbn [negb]; [|exact I].
  destruct (FindZone m (DNSName e)) as [zoneName zoneID].
  destruct (String.eqb zoneName ""); cbn [negb]; [exact I|].
  unfold client_Get_ints, client_Delete, remote_call, log_Printf, bind, ret.
  destruct (Get_ints (client p) (lookup_path zoneName e) s)
    as [[ids err] s'].
  cbn [val remote events].
  destruct (bool_decide (err <> None) || negb (length ids =? 1)%nat) eqn:Hc;
    cbn [val remote events app]; rewrite calls_of_remote.
  - split; exact I.
  - destruct (unique_id _ _ Hc) as [-> Hid]. rewrite calls_of_logged.
    split; [exact I|].
    destruct (dryRun p); cbn [val remote events]; [exact I|].
    destruct (Delete_path (client p) _ s') as [derr s''].
    cbn [val remote events app]. rewrite calls_of_remote.
    split; [|destruct derr; exact I].
    rewrite Hid at 1. apply lookup_justifies.
Qed.

Lemma updateRecords_body_ids p m e (s : S) prev :
  ids_looked_up prev (calls_of (events (updateRecords_body p m e s))).
Proof.
  unfold updateRecords_body.
  destruct (domainFilter p (DNSName e)); cbn [negb]; [|exact I].
  destruct (FindZone m (DNSName e)) as [zoneName zoneID].
  destruct (String.eqb zoneName ""); cbn [negb]; [exact I|].
  destruct (length (Targets e) =? 1)%nat; cbn [negb]; [|exact I].
  unfold client_Get_ints, client_Put, remote_call, log_Printf, bind, ret.
  destruct (Get_ints (client p) (lookup_path zoneName e) s)
    as [[ids err] s'].
  cbn [val remote events].
  destruct (bool_decide (err <> None) || negb (length ids =? 1)%nat) eqn:Hc;
    cbn [val remote events app]; rewrite calls_of_remote.
  - split; exact I.
  - destruct (unique_id _ _ Hc) as [-> Hid]. rewrite calls_of_logged.
    split; [exact I|].
    destruct (dryRun p); cbn [val remote events]; [exact I|].
    destruct (Put_record (client p) _ _ s') as [perr s''].
    cbn [val remote events app]. rewrite calls_of_remote.
    split; [|destruct perr; exact I].
    rewrite Hid at 1. apply lookup_justifies.
Qed.

(** X9: no id is made up.  In any run of [ApplyChanges], every [DELETE]
    and every [PUT] comes right after a lookup in the same zone that
    succeeded and returned exactly one id, and addresses the record of
    that id. *)
Theorem ApplyChanges_ids_looked_up p changes (s : S) :
  ids_looked_up None (calls_of (events (ApplyChanges p changes s))).
Proof.
  rewrite ApplyChanges_run.
  destruct (Get_strings (client p) "/domain/zone" s) as [[zones err] s1].
  destruct err as [e|]; cbn [events].
  - now split.
  - split; [exact I|]. rewrite !calls_of_app.
    repeat apply ids_looked_up_app; intros prev.
    + apply (loop_ids_looked_up (createRecords_body p (fill_mapper zones ∅))
               (createRecords p (fill_mapper zones ∅)));
        auto using createRecords_body_ids.
    + apply (loop_ids_looked_up (deleteRecords_body p (fill_mapper zones ∅))
               (deleteRecords p (fill_mapper zones ∅)));
        auto using deleteRecords_body_ids.
    + apply (loop_ids_looked_up (updateRecords_body p (fill_mapper zones ∅))
               (updateRecords p (fill_mapper zones ∅)));
        auto using updateRecords_body_ids.
Qed.

(** ** More on [ApplyChanges] *)

(** X10: when the zone listing fails, [ApplyChanges] does nothing else:
    the listing is its only call, nothing is logged, and the error is
    returned. *)
Theorem ApplyChanges_listing_failure p changes (s : S) zones e s1 :
  Get_strings (client p) "/domain/zone" s = ((zones, Some e), s1) ->
  ApplyChanges p changes s
  = {| val := Some e; remote := s1;
       events :=
         [Remote (get_call "/domain/zone" (PStrings zones) (Some e))] |}.
Proof. intros Hget. now rewrite ApplyChanges_run, Hget. Qed.

Lemma requests_logged l evs : requests (Logged l :: evs) = requests evs.
Proof. reflexivity. Qed.

Lemma requests_remote c evs :
  requests (Remote c :: evs) = (method c, path c) :: requests evs.
Proof. reflexivity. Qed.

(** The calls of one iteration: none or a [POST] when creating; none, a
    lookup, or a lookup and the mutation otherwise. *)
Lemma createRecords_body_shape p m e (s : S) :
  requests (events (createRecords_body p m e s)) = []
  \/ exists url, requests (events (createRecords_body p m e s)) = [(POST, url)].
Proof.
  rewrite createRecords_body_requests.
  destruct (in_scope p m e && single_target e && negb (dryRun p));
    [right; eexists; reflexivity | now left].
Qed.

Lemma lookup_then (mth : Method) p e (s : S) (o : Out S unit) :
  (exists zoneName (k : list Z * option error -> M S unit),
      o = bind (client_Get_ints p (lookup_path zoneName e)) k s
      /\ forall r s',
          requests (events (k r s')) = []
          \/ exists url, requests (events (k r s')) = [(mth, url)]) ->
  exists url,
    requests (events o) = [(GET, url)]
    \/ exists url', requests (events o) = [(GET, url); (mth, url')].
Proof.
  intros (zoneName & k & -> & Hk).
  unfold bind, client_Get_ints, remote_call.
  destruct (Get_ints (client p) (lookup_path zoneName e) s)
    as [[ids err] s'].
  cbn [val remote events app]. rewrite requests_remote. cbn [method path].
  exists (lookup_path zoneName e).
  destruct (Hk (ids, err) s') as [->|[url' ->]];
    [now left | right; now exists url'].
Qed.

Lemma deleteRecords_body_shape p m e (s : S) :
  requests (events (deleteRecords_body p m e s)) = []
  \/ exists url,
      requests (events (deleteRecords_body p m e s)) = [(GET, url)]
      \/ exists url',
          requests (events (deleteRecords_body p m e s))
          = [(GET, url); (DELETE, url')].
Proof.
  unfold deleteRecords_body.
  destruct (domainFilter p (DNSName e)); cbn [negb]; [|now left].
  destruct (FindZone m (DNSName e)) as [zoneName zoneID].
  destruct (String.eqb zoneName ""); cbn [negb]; [now left|].
  right. apply (lookup_then DELETE p e s).
  eexists zoneName, _. split; [reflexivity|].
  intros [ids err] s'. cbv beta iota.
  destruct (bool_decide (err <> None) || negb (length ids =? 1)%nat);
    [now left|].
  unfold client_Delete, remote_call, log_Printf, bind, ret.
  cbn [val remote events].
  destruct (dryRun p); [now left|].
  destruct (Delete_path (client p) _ s') as [derr s''].
  cbn [val remote events app]. rewrite requests_logged, requests_remote.
  right. eexists. destruct derr; reflexivity.
Qed.

Lemma updateRecords_body_shape p m e (s : S) :
  requests (events (updateRecords_body p m e s)) = []
  \/ exists url,
      requests (events (updateRecords_body p m e s)) = [(GET, url)]
      \/ exists url',
          requests (events (updateRecords_body p m e s))
          = [(GET, url); (PUT, url')].
Proof.
  unfold updateRecords_body.
  destruct (domainFilter p (DNSName e)); cbn [negb]; [|now left].
  destruct (FindZone m (DNSName e)) as [zoneName zoneID].
  destruct (String.eqb zoneName ""); cbn [negb]; [now left|].
  destruct (length (Targets e) =? 1)%nat; cbn [negb]; [|now left].
  right. apply (lookup_then PUT p e s).
  eexists zoneName, _. split; [reflexivity|].
  intros [ids err] s'. cbv beta iota.
  destruct (bool_decide (err <> None) || negb (length ids =? 1)%nat);
    [now left|].
  unfold client_Put, remote_call, log_Printf, bind, ret.
  cbn [val remote events].
  destruct (dryRun p); [now left|].
  destruct (Put_record (client p) _ _ s') as [perr s''].
  cbn [val remote events app]. rewrite requests_logged, requests_remote.
  right. eexists. destruct perr; reflexivity.
Qed.

Lemma loop_requests_all (P : Method * string -> Prop)
    (body : Endpoint -> M S unit) (loop : list Endpoint -> M S unit) :
  loop [] = ret tt ->
  (forall e es, loop (e :: es) = bind (body e) (fun _ => loop es)) ->
  (forall e s, Forall P (requests (events (body e s)))) ->
  forall es s, Forall P (requests (events (loop es s))).
Proof.
  intros Hloop0 Hloop1 Hbody es.
  induction es as [|e es IH]; intros s.
  - rewrite Hloop0. constructor.
  - rewrite Hloop1. unfold bind. cbn [events]. rewrite requests_app.
    apply Forall_app. split; [apply Hbody | apply IH].
Qed.

Lemma loop_length {B} (obs : list Event -> list B) (k : nat)
    (body : Endpoint -> M S unit) (loop : list Endpoint -> M S unit) :
  obs [] = [] ->
  (forall a b, obs (a ++ b)%list = (obs a ++ obs b)%list) ->
  loop [] = ret tt ->
  (forall e es, loop (e :: es) = bind (body e) (fun _ => loop es)) ->
  (forall e s, (length (obs (events (body e s))) <= k)%nat) ->
  forall es s, (length (obs (events (loop es s))) <= k * length es)%nat.
Proof.
  intros Hnil Happ Hloop0 Hloop1 Hbody es.
  induction es as [|e es IH]; intros s.
  - rewrite Hloop0. cbn [ret events]. rewrite Hnil. cbn. lia.
  - rewrite Hloop1. unfold bind. cbn [events]. rewrite Happ, length_app.
    specialize (Hbody e s).
    specialize (IH (remote (body e s))). cbn [length]. lia.
Qed.

Lemma mutations_app (a b : list Event) :
  mutations (a ++ b) = (mutations a ++ mutations b)%list.
Proof. unfold mutations. now rewrite requests_app, List.filter_app. Qed.

(** X11: the phases come in order.  The calls of [ApplyChanges] are the
    zone listing, then calls that are all [POST], then calls that are
    all [GET] or [DELETE], then calls that are all [GET] or [PUT]: no
    record is deleted before the creations are through, none is updated
    before the deletions are. *)
Theorem ApplyChanges_phases p changes (s : S) :
  exists a b c,
    requests (events (ApplyChanges p changes s))
    = ((GET, "/domain/zone") :: a ++ b ++ c)%list
    /\ Forall (fun r => r.1 = POST) a
    /\ Forall (fun r => r.1 = GET \/ r.1 = DELETE) b
    /\ Forall (fun r => r.1 = GET \/ r.1 = PUT) c.
Proof.
  rewrite ApplyChanges_run.
  destruct (Get_strings (client p) "/domain/zone" s) as [[zones err] s1].
  destruct err as [e|]; cbn [events].
  - exists [], [], []. repeat split; constructor.
  - rewrite requests_remote, !requests_app. cbn [method path get_call].
    eexists _, _, _. split; [reflexivity|]. split; [|split].
    + apply (loop_requests_all _ (createRecords_body p (fill_mapper zones ∅))
               (createRecords p (fill_mapper zones ∅))); auto.
      intros e s'.
      destruct (createRecords_body_shape p (fill_mapper zones ∅) e s')
        as [->|[url ->]]; repeat constructor.
    + apply (loop_requests_all _ (deleteRecords_body p (fill_mapper zones ∅))
               (deleteRecords p (fill_mapper zones ∅))); auto.
      intros e s'.
      destruct (deleteRecords_body_shape p (fill_mapper zones ∅) e s')
        as [->|[url [->|[url' ->]]]];
        repeat (constructor; [cbn; auto|]); constructor.
    + apply (loop_requests_all _ (updateRecords_body p (fill_mapper zones ∅))
               (updateRecords p (fill_mapper zones ∅))); auto.
      intros e s'.
      destruct (updateRecords_body_shape p (fill_mapper zones ∅) e s')
        as [->|[url [->|[url' ->]]]];
        repeat (constructor; [cbn; auto|]); constructor.
Qed.

(** X12: at most one mutation per endpoint.  [ApplyChanges] makes no more
    [POST], [PUT] and [DELETE] calls than the three lists have endpoints,
    and no more calls in all than the listing, one per endpoint to create
    and two per endpoint to delete or update. *)
Theorem ApplyChanges_call_bounds p changes (s : S) :
  (length (mutations (events (ApplyChanges p changes s)))
   <= length (Create changes) + length (Delete changes)
      + length (UpdateNew changes))%nat
  /\ (length (requests (events (ApplyChanges p changes s)))
      <= 1 + length (Create changes) + 2 * length (Delete changes)
         + 2 * length (UpdateNew changes))%nat.
Proof.
  rewrite ApplyChanges_run.
  destruct (Get_strings (client p) "/domain/zone" s) as [[zones err] s1].
  destruct err as [e|]; cbn [events].
  - cbn. lia.
  - set (m := fill_mapper zones ∅).
    set (o1 := createRecords p m (Create changes) s1).
    set (o2 := deleteRecords p m (Delete changes) (remote o1)).
    set (o3 := updateRecords p m (UpdateNew changes) (remote o2)).
    assert (Hc : forall e s',
               requests (events (createRecords_body p m e s')) = []
               \/ exists url,
                   requests (events (createRecords_body p m e s'))
                   = [(POST, url)])
      by (intros; apply createRecords_body_shape).
    pose proof (deleteRecords_body_shape p m) as Hd.
    pose proof (updateRecords_body_shape p m) as Hu.
    assert (Hm1 : (length (mutations (events o1))
                   <= 1 * length (Create changes))%nat).
    { apply (loop_length mutations 1 (createRecords_body p m)
               (createRecords p m)); auto using mutations_app.
      intros e s'. unfold mutations.
      destruct (Hc e s') as [->|[url ->]]; cbn; lia. }
    assert (Hm2 : (length (mutations (events o2))
                   <= 1 * length (Delete changes))%nat).
    { apply (loop_length mutations 1 (deleteRecords_body p m)
               (deleteRecords p m)); auto using mutations_app.
      intros e s'. unfold mutations.
      destruct (Hd e s') as [->|[url [->|[url' ->]]]]; cbn; lia. }
    assert (Hm3 : (length (mutations (events o3))
                   <= 1 * length (UpdateNew changes))%nat).
    { apply (loop_length mutations 1 (updateRecords_body p m)
               (updateRecords p m)); auto using mutations_app.
      intros e s'. unfold mutations.
      destruct (Hu e s') as [->|[url [->|[url' ->]]]]; cbn; lia. }
    assert (Hr1 : (length (requests (events o1))
                   <= 1 * length (Create changes))%nat).
    { apply (loop_length requests 1 (createRecords_body p m)
               (createRecords p m)); auto using requests_app.
      intros e s'. destruct (Hc e s') as [->|[url ->]]; cbn; lia. }
    assert (Hr2 : (length (requests (events o2))
                   <= 2 * length (Delete changes))%nat).
    { apply (loop_length requests 2 (deleteRecords_body p m)
               (deleteRecords p m)); auto using requests_app.
      intros e s'.
      destruct (Hd e s') as [->|[url [->|[url' ->]]]]; cbn; lia. }
    assert (Hr3 : (length (requests (events o3))
                   <= 2 * length (UpdateNew changes))%nat).
    { apply (loop_length requests 2 (updateRecords_body p m)
               (updateRecords p m)); auto using requests_app.
      intros e s'.
      destruct (Hu e s') as [->|[url [->|[url' ->]]]]; cbn; lia. }
    change (mutations (?c :: ?l)) with (mutations l).
    rewrite requests_remote, !mutations_app, !requests_app.
    cbn [length]. rewrite !length_app. lia.
Qed.

(** ** The zone table *)

Lemma fill_mapper_lookup zones :
  forall (m0 : zoneIDName) (k : string),
    fill_mapper zones m0 !! k
    = if decide (k ∈ zones) then Some k else m0 !! k.
Proof.
  induction zones as [|z zones IH]; intros m0 k.
  - cbn. destruct (decide (k ∈ [])) as [Hin|_]; [|reflexivity].
    now apply elem_of_nil in Hin.
  - change (fill_mapper (z :: zones) m0)
      with (fill_mapper zones (<[z := z]> m0)).
    rewrite IH.
    destruct (decide (k ∈ zones)) as [Hin|Hout].
    + rewrite decide_True; [reflexivity | now right].
    + destruct (decide (z = k)) as [->|Hne].
      * rewrite lookup_insert_eq, decide_True; [reflexivity | now left].
      * rewrite lookup_insert_ne by exact Hne.
        rewrite decide_False; [reflexivity|].
        intros Hin. apply elem_of_cons in Hin as [->|Hin]; contradiction.
Qed.

(** X13: the table [ApplyChanges] fills from the zone listing maps every
    listed zone to itself and holds nothing else, whatever the order of
    the listing and however often a zone is repeated. *)
Theorem fill_mapper_identity zones (k v : string) :
  fill_mapper zones ∅ !! k = Some v <-> v = k /\ In k zones.
Proof.
  rewrite fill_mapper_lookup, <- list_elem_of_In.
  destruct (decide (k ∈ zones)) as [Hin|Hout].
  - split; [intros [= <-]; now split | intros [-> _]; reflexivity].
  - rewrite lookup_empty. split; [discriminate | intros [_ Hin]; contradiction].
Qed.

(** ** More on names, paths and TTLs *)

Lemma substring_split (s : string) :
  forall n : nat,
    (n <= String.length s)%nat ->
    s = substring 0 n s ++ substring n (String.length s - n) s.
Proof.
  induction s as [|c s IH]; intros n Hn.
  - destruct n; [reflexivity | cbn in Hn; lia].
  - destruct n as [|n].
    + rewrite substring_0_0.
      change (String c s
              = substring 0 (String.length (String c s)) (String c s)).
      now rewrite substring_whole.
    + cbn [String.length] in Hn.
      change (String c s
              = String c (substring 0 n s
                          ++ substring n (String.length s - n) s)).
      rewrite <- IH by lia. reflexivity.
Qed.

Lemma HasSuffix_split (s suffix : string) :
  HasSuffix s suffix = true ->
  s = substring 0 (String.length s - String.length suffix) s ++ suffix.
Proof.
  unfold HasSuffix. intros H. apply andb_true_iff in H as [Hlen Heq].
  apply Nat.leb_le in Hlen. apply String.eqb_eq in Heq.
  assert (Hs := substring_split s
                  (String.length s - String.length suffix)
                  (Nat.le_sub_l _ _)).
  replace (String.length s - (String.length s - String.length suffix))%nat
    with (String.length suffix) in Hs by lia.
  rewrite Heq in Hs. exact Hs.
Qed.

Lemma string_app_neq_l (a b : string) : b <> "" -> a ++ b <> a.
Proof.
  intros Hb Heq. apply (f_equal String.length) in Heq.
  rewrite string_length_app in Heq.
  destruct b; [congruence | cbn [String.length] in Heq; lia].
Qed.

(** X14: the round trip the other way.  Formatting the sub-domain that
    [getOVHSubDomain] extracts gives the name back exactly for the names
    of the zone: the zone's own name, and the names that end in a dot
    followed by the zone without being just that.  For any other name
    (outside the zone, empty, or the bare [".zone"]) it gives another
    name. *)
Theorem formatOVHDNSName_getOVHSubDomain (DNSName zoneName : string) :
  formatOVHDNSName (getOVHSubDomain DNSName zoneName) zoneName = DNSName
  <-> DNSName = zoneName
      \/ (HasSuffix DNSName ("." ++ zoneName) = true
          /\ DNSName <> "." ++ zoneName).
Proof.
  unfold getOVHSubDomain.
  destruct (String.eqb_spec DNSName zoneName) as [->|Hne]; cbn [negb].
  - split; [now left | reflexivity].
  - unfold TrimSuffix.
    destruct (HasSuffix DNSName ("." ++ zoneName)) eqn:Hsuf.
    + pose proof (HasSuffix_split _ _ Hsuf) as Hsplit.
      set (sub := substring 0
                    (String.length DNSName - String.length ("." ++ zoneName))
                    DNSName) in *.
      clearbody sub.
      destruct (String.eqb_spec sub "") as [Hsub|Hsub].
      * rewrite Hsub in Hsplit |- *.
        change (DNSName = "." ++ zoneName) in Hsplit.
        rewrite formatOVHDNSName_apex.
        split; [congruence|]. intros [H|[_ H]]; congruence.
      * rewrite (formatOVHDNSName_sub sub zoneName Hsub).
        split; [intros _; right|intros _; symmetry; exact Hsplit].
        split; [reflexivity|]. intros Heq. rewrite Heq in Hsplit.
        apply Hsub. apply (f_equal String.length) in Hsplit.
        rewrite !string_length_app in Hsplit.
        destruct sub; [reflexivity | cbn [String.length] in Hsplit; lia].
    + split; [|intros [H|[H _]]; congruence].
      intros Heq. exfalso.
      destruct (String.eqb_spec DNSName "") as [Hempty|Hfull].
      * rewrite Hempty in *. rewrite formatOVHDNSName_apex in Heq. congruence.
      * rewrite (formatOVHDNSName_sub DNSName zoneName Hfull) in Heq.
        now apply (string_app_neq_l DNSName ("." ++ zoneName)) in Heq.
Qed.

Lemma string_app_inv_head (a b c : string) : a ++ b = a ++ c -> b = c.
Proof.
  induction a as [|ch a IH]; [trivial|].
  change (String ch (a ++ b) = String ch (a ++ c) -> b = c).
  intros [= H]. exact (IH H).
Qed.

Lemma Sprintf_record_id (zone : string) (id : Z) :
  Sprintf "/domain/zone/%s/record/%d" [AString zone; AInt id]
  = "/domain/zone/" ++ zone ++ "/record/" ++ pretty id.
Proof.
  transitivity ("/domain/zone/" ++ zone ++ "/record/" ++ pretty id ++ "");
    [reflexivity | now rewrite string_app_empty_r].
Qed.

(** X15: within a zone, the record paths of different ids differ: the
    [GET], [PUT] or [DELETE] of one record never addresses another. *)
Theorem record_path_inj (zone : string) (id id' : Z) :
  Sprintf "/domain/zone/%s/record/%d" [AString zone; AInt id]
  = Sprintf "/domain/zone/%s/record/%d" [AString zone; AInt id'] ->
  id = id'.
Proof.
  rewrite !Sprintf_record_id. intros H.
  apply string_app_inv_head, string_app_inv_head,
    string_app_inv_head in H.
  exact (inj pretty _ _ H).
Qed.

(** X16: the TTL survives the conversions.  [int(ttl)] is the TTL itself
    for every TTL of the [int64] range, so the record sent carries the
    endpoint's TTL and reading it back gives the same TTL; outside that
    range the conversion still lands in the range. *)
Theorem TTL_conversions (ttl : Z) :
  (- 2 ^ 63 <= int_of_TTL ttl < 2 ^ 63)
  /\ (- 2 ^ 63 <= ttl < 2 ^ 63 ->
      int_of_TTL ttl = ttl /\ TTL_of_int (int_of_TTL ttl) = ttl).
Proof.
  unfold int_of_TTL, TTL_of_int, wrap.
  change (2 ^ (64 - 1)) with 9223372036854775808.
  change (2 ^ 64) with 18446744073709551616.
  change (2 ^ 63) with 9223372036854775808.
  split.
  - pose proof (Z.mod_pos_bound (ttl + 9223372036854775808)
                  18446744073709551616 eq_refl). lia.
  - intros Hr. rewrite Z.mod_small by lia. lia.
Qed.

End Provider.


(** * The theorems on the scenarios of the specification *)

Example Records_example :
  val (Records example_types (example_provider false example_script) 0%nat)
  = (Some [{| DNSName := "www.example.com"; Targets := ["1.2.3.4"];
              RecordType := "A"; RecordTTL := 300 |}], None).
Proof. vm_compute. reflexivity. Qed.

Example create_example :
  requests
    (events
       (createRecords zoneIDName_FindZone
          (example_provider false example_script) example_zones [api_a] 0%nat))
  = [(POST, "/domain/zone/example.com/record")].
Proof. vm_compute. reflexivity. Qed.

Example delete_ambiguous_example :
  requests
    (events
       (deleteRecords zoneIDName_FindZone
          (example_provider false example_script) example_zones [old_cname]
          0%nat))
  = [(GET, "/domain/zone/example.com/record?fieldType=CNAME&subDomain=old")].
Proof. vm_compute. reflexivity. Qed.

Lemma Records_endpoints_witness :
  let p := example_provider false example_script in
  let eps := [endpoint_of_record "example.com" www_record] in
  val (Records example_types p 0%nat) = (Some eps, None)
  /\ exists zones fetched,
      events (Records example_types p 0%nat)
      = Remote (get_call "/domain/zone" (PStrings zones) None)
        :: flat_map zone_events fetched
      /\ map fst fetched = List.filter (domainFilter p) zones
      /\ eps
         = flat_map
             (fun zr =>
                flat_map
                  (fun ir =>
                     if example_types (FieldType ir.2)
                     then [endpoint_of_record zr.1 ir.2] else [])
                  zr.2)
             fetched.
Proof.
  intros p eps.
  assert (H : val (Records example_types p 0%nat) = (Some eps, None))
    by (vm_compute; reflexivity).
  split; [exact H|].
  exact (Records_endpoints example_types p 0%nat eps H).
Defined.

Lemma Records_fail_fast_witness :
  let p := example_provider false broken_script in
  let c :=
    get_call "/domain/zone/example.com/record/2" (PRecord empty_record)
      (Some "timeout") in
  In c (calls_of (events (Records example_types p 0%nat)))
  /\ failure c = Some "timeout"
  /\ val (Records example_types p 0%nat) = (None, Some "timeout").
Proof.
  intros p c.
  assert (Hin : In c (calls_of (events (Records example_types p 0%nat))))
    by (vm_compute; tauto).
  split; [exact Hin|]. split; [reflexivity|].
  exact (Records_fail_fast example_types p 0%nat c "timeout" Hin eq_refl).
Defined.

Lemma ApplyChanges_absorbs_failures_witness :
  let p := example_provider false broken_script in
  let run := ApplyChanges zoneIDName_FindZone p busy_changes 0%nat in
  (Get_strings (client p) "/domain/zone" 0%nat).1.2 = None
  /\ val run = None
  /\ attempts (events run)
     = [(GET, "/domain/zone");
        (POST, "/domain/zone/example.com/record");
        (POST, "/domain/zone/example.com/record");
        (GET, "/domain/zone/example.com/record?fieldType=A&subDomain=www");
        (GET, "/domain/zone/example.com/record?fieldType=A&subDomain=www");
        (GET, "/domain/zone/example.com/record?fieldType=A&subDomain=www");
        (GET, "/domain/zone/example.com/record?fieldType=A&subDomain=www")]
  /\ failures_logged (events run) = true
  /\ calls_of (events run)
     = expected_calls zoneIDName_FindZone p busy_changes 0%nat
  /\ map (fun c => (method c, path c, failure c))
       (expected_calls zoneIDName_FindZone p busy_changes 0%nat)
     = [(GET, "/domain/zone", None);
        (POST, "/domain/zone/example.com/record", Some "forbidden");
        (POST, "/domain/zone/example.com/record", Some "forbidden");
        (GET, "/domain/zone/example.com/record?fieldType=A&subDomain=www",
         None);
        (DELETE, "/domain/zone/example.com/record/1", Some "forbidden");
        (GET, "/domain/zone/example.com/record?fieldType=A&subDomain=www",
         None);
        (DELETE, "/domain/zone/example.com/record/1", Some "forbidden");
        (GET, "/domain/zone/example.com/record?fieldType=A&subDomain=www",
         None);
        (PUT, "/domain/zone/example.com/record/1", Some "forbidden");
        (GET, "/domain/zone/example.com/record?fieldType=A&subDomain=www",
         None);
        (PUT, "/domain/zone/example.com/record/1", Some "forbidden")].
Proof.
  intros p run.
  destruct (ApplyChanges_absorbs_failures zoneIDName_FindZone p
              busy_changes 0%nat) as (Hval & Hrest & Hcalls).
  destruct (Hrest eq_refl) as [Hatt Hlog].
  split; [reflexivity|]. split; [exact Hval|].
  split; [unfold run; rewrite Hatt; vm_compute; reflexivity|].
  split; [exact Hlog|]. split; [exact Hcalls|].
  vm_compute. reflexivity.
Defined.

Lemma getOVHSubDomain_empty_iff_apex_witness :
  has_first_label "example.com"
  /\ (getOVHSubDomain "example.com" "example.com" = ""
      <-> "example.com" = "example.com").
Proof.
  assert (H : has_first_label "example.com") by discriminate.
  split; [exact H|].
  exact (getOVHSubDomain_empty_iff_apex "example.com" "example.com" H).
Defined.

Lemma dry_run_only_reads_witness :
  let p := example_provider true broken_script in
  dryRun p = true
  /\ Forall (fun c => method c = GET)
       (calls_of
          (events (ApplyChanges zoneIDName_FindZone p example_changes 0%nat)))
  /\ requests
       (events (ApplyChanges zoneIDName_FindZone p example_changes 0%nat))
     = expected_reads zoneIDName_FindZone p example_changes 0%nat
  /\ reads
       (events
          (ApplyChanges zoneIDName_FindZone (with_dryRun false p)
             example_changes 0%nat))
     = requests
         (events (ApplyChanges zoneIDName_FindZone p example_changes 0%nat)).
Proof.
  intros p. split; [reflexivity|].
  exact (dry_run_only_reads zoneIDName_FindZone p example_changes 0%nat
           eq_refl).
Defined.

Example dry_run_example :
  requests
    (events
       (ApplyChanges zoneIDName_FindZone (example_provider true broken_script)
          example_changes 0%nat))
  = [(GET, "/domain/zone");
     (GET, "/domain/zone/example.com/record?fieldType=CNAME&subDomain=old");
     (GET, "/domain/zone/example.com/record?fieldType=A&subDomain=www");
     (GET, "/domain/zone/example.com/record?fieldType=A&subDomain=www")].
Proof. vm_compute. reflexivity. Qed.

Lemma ambiguous_lookup_no_mutation_witness :
  let p := example_provider false example_script in
  let url :=
    "/domain/zone/example.com/record?fieldType=CNAME&subDomain=old" in
  let e := {| DNSName := "old.example.com"; Targets := ["target.example.com"];
              RecordType := "CNAME"; RecordTTL := 0 |} in
  (exists l1 l2,
      deleteRecords zoneIDName_FindZone p example_zones [e; api_a] 0%nat
      = after [Remote (get_call url (PInts [4; 5]) None); Logged l1; Logged l2]
          (deleteRecords zoneIDName_FindZone p example_zones [api_a] 1%nat))
  /\ (length (Targets e) = 1%nat ->
      exists l1 l2,
        updateRecords zoneIDName_FindZone p example_zones [e; api_a] 0%nat
        = after
            [Remote (get_call url (PInts [4; 5]) None); Logged l1; Logged l2]
            (updateRecords zoneIDName_FindZone p example_zones [api_a] 1%nat)).
Proof.
  intros p url e.
  apply (ambiguous_lookup_no_mutation zoneIDName_FindZone p example_zones e
           [api_a] 0%nat "example.com" "example.com" [4; 5] None 1%nat).
  - reflexivity.
  - vm_compute. reflexivity.
  - discriminate.
  - vm_compute. reflexivity.
  - right. simpl. lia.
Defined.

Lemma multi_target_endpoint_no_call_witness :
  let p := example_provider false example_script in
  let e := www_a ["1.2.3.4"; "5.6.7.8"] in
  length (Targets e) <> 1%nat
  /\ (exists l,
         createRecords zoneIDName_FindZone p example_zones [e; api_a] 0%nat
         = after [Logged l]
             (createRecords zoneIDName_FindZone p example_zones [api_a] 0%nat))
  /\ (exists l,
         updateRecords zoneIDName_FindZone p example_zones [e; api_a] 0%nat
         = after [Logged l]
             (updateRecords zoneIDName_FindZone p example_zones [api_a] 0%nat)).
Proof.
  intros p e.
  assert (H : length (Targets e) <> 1%nat) by (simpl; lia).
  split; [exact H|].
  exact (multi_target_endpoint_no_call zoneIDName_FindZone p example_zones e
           [api_a] 0%nat H).
Defined.

Lemma filtered_endpoint_no_call_witness :
  let p := example_provider false example_script in
  domainFilter p (DNSName outside_a) = false
  /\ (exists l,
         createRecords zoneIDName_FindZone p example_zones [outside_a; api_a]
           0%nat
         = after [Logged l]
             (createRecords zoneIDName_FindZone p example_zones [api_a] 0%nat))
  /\ (exists l,
         deleteRecords zoneIDName_FindZone p example_zones [outside_a; api_a]
           0%nat
         = after [Logged l]
             (deleteRecords zoneIDName_FindZone p example_zones [api_a] 0%nat))
  /\ (exists l,
         updateRecords zoneIDName_FindZone p example_zones [outside_a; api_a]
           0%nat
         = after [Logged l]
             (updateRecords zoneIDName_FindZone p example_zones [api_a] 0%nat)).
Proof.
  intros p. split; [reflexivity|].
  exact (filtered_endpoint_no_call zoneIDName_FindZone p example_zones
           outside_a [api_a] 0%nat eq_refl).
Defined.


Lemma Records_no_matching_zone_witness :
  Records example_types foreign_provider 0%nat
  = {| val := (Some [], None); remote := 1%nat;
       events :=
         [Remote
            (get_call "/domain/zone"
               (PStrings ["example.com"; "example.org"]) None)] |}.
Proof.
  apply (Records_no_matching_zone example_types foreign_provider 0%nat
           ["example.com"; "example.org"] 1%nat).
  - reflexivity.
  - repeat constructor.
Defined.

Lemma Records_endpoints_well_formed_witness :
  let p := example_provider false example_script in
  Forall
    (fun ep =>
       example_types (RecordType ep) = true
       /\ length (Targets ep) = 1%nat
       /\ exists zone,
           In zone (Get_strings (client p) "/domain/zone" 0%nat).1.1
           /\ domainFilter p zone = true
           /\ in_zone (DNSName ep) zone)
    [endpoint_of_record "example.com" www_record].
Proof.
  intros p.
  apply (Records_endpoints_well_formed example_types p 0%nat).
  vm_compute. reflexivity.
Defined.

Lemma unowned_endpoint_no_call_witness :
  let p := example_provider false example_script in
  (exists l, createRecords zoneIDName_FindZone p ∅ [api_a; old_cname] 0%nat
             = after [Logged l]
                 (createRecords zoneIDName_FindZone p ∅ [old_cname] 0%nat))
  /\ (exists l, deleteRecords zoneIDName_FindZone p ∅ [api_a; old_cname] 0%nat
                = after [Logged l]
                    (deleteRecords zoneIDName_FindZone p ∅ [old_cname] 0%nat))
  /\ (exists l, updateRecords zoneIDName_FindZone p ∅ [api_a; old_cname] 0%nat
                = after [Logged l]
                    (updateRecords zoneIDName_FindZone p ∅ [old_cname] 0%nat)).
Proof.
  intros p.
  apply (unowned_endpoint_no_call zoneIDName_FindZone p ∅ api_a [old_cname]
           0%nat).
  vm_compute. reflexivity.
Defined.

Lemma createRecords_posts_record_witness :
  let p := example_provider false example_script in
  let record :=
    {| ID := 0; Zone := ""; Target := "5.6.7.8"; TTL := 0;
       FieldType := "A"; SubDomain := "api" |} in
  exists l logs,
    createRecords zoneIDName_FindZone p example_zones [api_a; old_cname] 0%nat
    = after
        ([Logged l;
          Remote
            (post_call "/domain/zone/example.com/record" record record None)]
         ++ map Logged logs)
        (createRecords zoneIDName_FindZone p example_zones [old_cname] 1%nat).
Proof.
  intros p record.
  apply (createRecords_posts_record zoneIDName_FindZone p example_zones api_a
           [old_cname] 0%nat "example.com" "example.com" "5.6.7.8" record
           None 1%nat).
  - reflexivity.
  - vm_compute. reflexivity.
  - discriminate.
  - reflexivity.
  - reflexivity.
  - vm_compute. reflexivity.
Defined.

Lemma updateRecords_puts_record_witness :
  let p := example_provider false example_script in
  let e := www_a ["9.9.9.9"] in
  let record :=
    {| ID := 0; Zone := ""; Target := "9.9.9.9"; TTL := 300;
       FieldType := "A"; SubDomain := "www" |} in
  exists l logs,
    updateRecords zoneIDName_FindZone p example_zones [e; old_cname] 0%nat
    = after
        ([Remote
            (get_call
               "/domain/zone/example.com/record?fieldType=A&subDomain=www"
               (PInts [1]) None);
          Logged l;
          Remote (put_call "/domain/zone/example.com/record/1" record None)]
         ++ map Logged logs)
        (updateRecords zoneIDName_FindZone p example_zones [old_cname] 2%nat).
Proof.
  intros p e record.
  apply (updateRecords_puts_record zoneIDName_FindZone p example_zones e
           [old_cname] 0%nat "example.com" "example.com" "9.9.9.9" 1 1%nat
           None 2%nat).
  - reflexivity.
  - vm_compute. reflexivity.
  - discriminate.
  - reflexivity.
  - vm_compute. reflexivity.
  - reflexivity.
  - vm_compute. reflexivity.
Defined.

Lemma ApplyChanges_listing_failure_witness :
  ApplyChanges zoneIDName_FindZone (example_provider false down_script)
    example_changes 0%nat
  = {| val := Some "unreachable"; remote := 1%nat;
       events :=
         [Remote (get_call "/domain/zone" (PStrings []) (Some "unreachable"))]
    |}.
Proof.
  apply (ApplyChanges_listing_failure zoneIDName_FindZone
           (example_provider false down_script) example_changes 0%nat
           [] "unreachable" 1%nat).
  reflexivity.
Defined.

Lemma record_path_inj_witness :
  "/domain/zone/example.com/record/42"
  = Sprintf "/domain/zone/%s/record/%d" [AString "example.com"; AInt 42]
  /\ 42 = 42.
Proof.
  split; [vm_compute; reflexivity|].
  apply (record_path_inj "example.com" 42 42). reflexivity.
Defined.

Lemma TTL_conversions_witness :
  - 2 ^ 63 <= 300 < 2 ^ 63
  /\ int_of_TTL 300 = 300 /\ TTL_of_int (int_of_TTL 300) = 300.
Proof.
  assert (H : - 2 ^ 63 <= 300 < 2 ^ 63)
    by (change (2 ^ 63) with 9223372036854775808; lia).
  split; [exact H|]. exact (proj2 (TTL_conversions 300) H).
Defined.
